(** * FieldDataProcessor: a shallow embedding and its properties

    The development follows [field_data_processor.py].  A table is a pandas
    [DataFrame] reduced to what the class touches: an index length and an
    ordered sequence of labelled columns (labels may repeat, as pandas
    allows).  An instance is a record of the attributes set by [__init__];
    methods are computations in a state-and-exception monad, so that an
    exception leaves behind every assignment made before it was raised. *)

From Stdlib Require Import ZArith.
From Equations Require Import Equations.
From stdpp Require Import gmap strings list fin_maps.

Local Open Scope nat_scope.

(** ** Cells, series and tables *)

(** A cell holds a number or a string.  A number is a value of an [int64]
    column, the type pandas gives to integer data; its arithmetic wraps
    around at 64 bits.  Floating-point columns and missing values are
    outside the model. *)
Inductive cell : Type :=
  | Num (z : Z)
  | Str (s : string).

#[global] Instance cell_eq_dec : EqDecision cell.
Proof. solve_decision. Defined.

Definition cell_to_sum (c : cell) : Z + string :=
  match c with Num z => inl z | Str s => inr s end.

Definition cell_of_sum (x : Z + string) : cell :=
  match x with inl z => Num z | inr s => Str s end.

#[global] Instance cell_countable : Countable cell.
Proof.
  apply (inj_countable' cell_to_sum cell_of_sum).
  intros []; reflexivity.
Defined.

Abbreviation Series := (list cell).

Record DataFrame : Type := mkDataFrame {
  df_index : nat;                       (* len(df.index): the row count   *)
  df_data : list (string * Series)      (* the columns, left to right     *)
}.

(** [df.columns]: the labels, in order. *)
Definition df_columns (t : DataFrame) : list string := (df_data t).*1.

(** [df[key]] before any error handling: every column carrying the label. *)
Definition df_select (key : string) (t : DataFrame) : list Series :=
  (filter (λ c, c.1 = key) (df_data t)).*2.

(** [dict.get(key, default)]. *)
Definition dict_get `{Countable K} {V} (d : gmap K V) (key : K) (dflt : V) : V :=
  default dflt (d !! key).

(** [df.rename(columns=mapper)] with the default [errors='ignore']: every
    label that is a key of [mapper] is replaced, the others are kept, and
    keys that label no column are skipped silently. *)
Definition df_rename (mapper : gmap string string) (t : DataFrame) : DataFrame :=
  {| df_index := df_index t;
     df_data := prod_map (λ l, dict_get mapper l l) id <$> df_data t |}.

(** ** The temporary label of [rename_columns]

    [while temp_name in self.df.columns: temp_name += "_"].  Each turn makes
    the candidate one character longer, so the number of labels at least as
    long as the candidate drops whenever the candidate is a label. *)

Definition at_least (n : nat) (cols : list string) : nat :=
  length (filter (λ c, n ≤ String.length c) cols).

Definition pending (cols : list string) (temp_name : string) : nat :=
  at_least (String.length temp_name) cols.

Lemma length_append (s1 s2 : string) :
  String.length (s1 +:+ s2) = String.length s1 + String.length s2.
Proof. induction s1 as [|a s1 IH]; simpl; [done | by rewrite IH]. Qed.

Lemma at_least_mono (n m : nat) (cols : list string) :
  n ≤ m → at_least m cols ≤ at_least n cols.
Proof.
  intros Hnm. unfold at_least.
  induction cols as [|c cols IH]; [done|].
  rewrite !filter_cons. repeat case_decide; simpl; lia.
Qed.

Lemma at_least_member (s : string) (cols : list string) :
  s ∈ cols → at_least (S (String.length s)) cols < at_least (String.length s) cols.
Proof.
  induction cols as [|c cols IH]; intros Hin.
  - by apply elem_of_nil in Hin.
  - pose proof (at_least_mono (String.length s) (S (String.length s)) cols) as Hmono.
    unfold at_least in *. rewrite !filter_cons.
    apply elem_of_cons in Hin as [<- | Hin].
    + rewrite decide_False by lia. rewrite decide_True by lia. simpl. lia.
    + specialize (IH Hin). repeat case_decide; simpl; lia.
Qed.

Lemma pending_step (cols : list string) (temp_name : string) :
  temp_name ∈ cols → pending cols (temp_name +:+ "_") < pending cols temp_name.
Proof.
  intros Hin. unfold pending. rewrite length_append. simpl.
  replace (String.length temp_name + 1) with (S (String.length temp_name)) by lia.
  by apply at_least_member.
Qed.

(** Keeps the equation [x = y] when matching on the test of the loop. *)
Definition inspect {A : Type} (x : A) : {y : A | x = y} := exist _ x eq_refl.

Equations temp_name_loop (cols : list string) (temp_name : string) : string
  by wf (pending cols temp_name) lt :=
  temp_name_loop cols temp_name with inspect (bool_decide (temp_name ∈ cols)) := {
    | exist _ true _ => temp_name_loop cols (temp_name +:+ "_");
    | exist _ false _ => temp_name }.
Next Obligation.
  intros cols temp_name Htest _. apply pending_step.
  by eapply bool_decide_eq_true_1.
Qed.

(** ** Exceptions and results *)

Inductive exn : Type :=
  | IndexError
  | AttributeError
  | TypeError
  | ValueError
  | KeyError (key : string)
  | ExternalError (msg : string).     (* raised by a collaborator *)

Inductive result (A : Type) : Type :=
  | Ok (a : A)
  | Raise (e : exn).
Arguments Ok {A} a.
Arguments Raise {A} e.

#[global] Instance result_ret : MRet result := λ A a, Ok a.
#[global] Instance result_bind : MBind result := λ A B f r,
  match r with Ok a => f a | Raise e => Raise e end.

(** ** Column access, [abs] and [apply] *)

(** What [df[key]] evaluates to: a [Series] when one column carries the
    label, a sub-frame when several do. *)
Inductive selection : Type :=
  | OneSeries (s : Series)
  | SubFrame (cols : list Series).

Definition df_getitem (key : string) (t : DataFrame) : result selection :=
  match df_select key t with
  | [] => Raise (KeyError key)
  | [s] => Ok (OneSeries s)
  | cols => Ok (SubFrame cols)
  end.

(** The range of [int64], and the reduction of an integer into it. *)
Definition int64_min : Z := (-9223372036854775808)%Z.
Definition int64_max : Z := 9223372036854775807%Z.

Definition is_int64 (z : Z) : Prop := (int64_min ≤ z ≤ int64_max)%Z.

Definition wrap64 (z : Z) : Z :=
  ((z + 9223372036854775808) mod 18446744073709551616 - 9223372036854775808)%Z.

(** [abs] of one value, as [Series.abs] computes it on an [int64] column:
    the magnitude reduced to 64 bits, so that the minimum is its own
    absolute value.  A string has no absolute value. *)
Definition cell_abs (c : cell) : result cell :=
  match c with
  | Num z => Ok (Num (wrap64 (Z.abs z)))
  | Str _ => Raise TypeError
  end.

Fixpoint Series_abs (s : Series) : result Series :=
  match s with
  | [] => Ok []
  | c :: s' => c' ← cell_abs c; r ← Series_abs s'; Ok (c' :: r)
  end.

Fixpoint frame_abs (cols : list Series) : result (list Series) :=
  match cols with
  | [] => Ok []
  | s :: cols' => s' ← Series_abs s; r ← frame_abs cols'; Ok (s' :: r)
  end.

Definition selection_abs (sel : selection) : result selection :=
  match sel with
  | OneSeries s => s' ← Series_abs s; Ok (OneSeries s')
  | SubFrame cols => cols' ← frame_abs cols; Ok (SubFrame cols')
  end.

(** [sel.apply(lambda crop: values.get(crop, crop))].  On a [Series] the
    function receives the cells one by one.  On a sub-frame it receives
    whole columns, which are unhashable, so the lookup raises; with no rows
    pandas returns a copy of the sub-frame instead. *)
Definition selection_apply_get (values : gmap cell cell) (nrows : nat)
    (sel : selection) : result selection :=
  match sel with
  | OneSeries s => Ok (OneSeries ((λ crop, dict_get values crop crop) <$> s))
  | SubFrame cols => if decide (nrows = 0) then Ok (SubFrame cols) else Raise TypeError
  end.

(** Columns labelled [key] receive the columns of [vals], left to right. *)
Fixpoint assign (key : string) (vals : list Series) (data : list (string * Series))
    : list (string * Series) :=
  match data with
  | [] => []
  | (l, s) :: rest =>
      if decide (l = key) then
        match vals with
        | v :: vals' => (l, v) :: assign key vals' rest
        | [] => (l, s) :: rest
        end
      else (l, s) :: assign key vals rest
  end.

(** [df[key] = value], in place.  A [Series] fills every column labelled
    [key], or is appended as a new column when there is none; a sub-frame
    must have as many columns as carry the label. *)
Definition df_setitem (key : string) (value : selection) (t : DataFrame)
    : result DataFrame :=
  match value with
  | OneSeries s =>
      if bool_decide (key ∈ df_columns t) then
        Ok {| df_index := df_index t;
              df_data := (λ c, if decide (c.1 = key) then (c.1, s) else c) <$> df_data t |}
      else
        Ok {| df_index := df_index t; df_data := df_data t ++ [(key, s)] |}
  | SubFrame cols =>
      if decide (length (df_select key t) = length cols) then
        Ok {| df_index := df_index t; df_data := assign key cols (df_data t) |}
      else Raise ValueError
  end.

(** ** Logging *)

Record Logger : Type := mkLogger {
  disabled : bool;
  level : Z;              (* 0 NOTSET, 10 DEBUG, 20 INFO *)
  handlers : nat          (* number of attached stream handlers *)
}.

Definition ascii_upper (a : Ascii.ascii) : Ascii.ascii :=
  let n := Ascii.nat_of_ascii a in
  if (97 <=? n) && (n <=? 122) then Ascii.ascii_of_nat (n - 32) else a.

Fixpoint upper (s : string) : string :=
  match s with
  | EmptyString => EmptyString
  | String a s' => String (ascii_upper a) (upper s')
  end.

(** [initialize_logging], acting on the logger that [logging.getLogger]
    hands out.  'NONE' disables the logger and returns before a level or a
    handler is set. *)
Definition initialize_logging (lg : Logger) (logging_level : string) : Logger :=
  let set_up (log_level : Z) :=
    {| disabled := disabled lg; level := log_level;
       handlers := if decide (handlers lg = 0) then 1 else handlers lg |} in
  if decide (upper logging_level = "DEBUG") then set_up 10%Z
  else if decide (upper logging_level = "INFO") then set_up 20%Z
  else if decide (upper logging_level = "NONE") then
    {| disabled := true; level := level lg; handlers := handlers lg |}
  else set_up 20%Z.

(** [logger.info(msg)]: one line per handler when the logger is enabled
    for INFO.  A logger without a level of its own inherits the root
    logger's WARNING. *)
Definition Logger_info (lg : Logger) (msg : string) (out : list string) : list string :=
  let effective := if decide (level lg = 0%Z) then 30%Z else level lg in
  if negb (disabled lg) && (effective <=? 20)%Z
  then out ++ replicate (handlers lg) msg
  else out.

(** ** The instance *)

(** The dictionary handed to [__init__], read at its five keys. *)
Record ConfigParams : Type := mkConfigParams {
  cfg_db_path : string;
  cfg_sql_query : string;
  cfg_columns_to_rename : list (string * string);   (* a dict, in insertion order *)
  cfg_values_to_rename : gmap cell cell;
  cfg_weather_mapping_csv : string
}.

Record FieldDataProcessor (Engine : Type) : Type := mkFieldDataProcessor {
  db_path : string;
  sql_query : string;
  columns_to_rename : list (string * string);
  values_to_rename : gmap cell cell;
  weather_map_data : string;
  df : option DataFrame;
  engine : option Engine;
  logger : Logger
}.
Arguments mkFieldDataProcessor {Engine}.
Arguments db_path {Engine}.
Arguments sql_query {Engine}.
Arguments columns_to_rename {Engine}.
Arguments values_to_rename {Engine}.
Arguments weather_map_data {Engine}.
Arguments df {Engine}.
Arguments engine {Engine}.
Arguments logger {Engine}.

(** What a method runs in: the instance, and the lines logged so far. *)
Record World (Engine : Type) : Type := mkWorld {
  self : FieldDataProcessor Engine;
  console : list string
}.
Arguments mkWorld {Engine}.
Arguments self {Engine}.
Arguments console {Engine}.

(** A method call: it ends with a value or an exception, and in both cases
    with the world as the executed statements left it. *)
Definition M (Engine A : Type) : Type := World Engine → World Engine * result A.

#[global] Instance M_ret {Engine} : MRet (M Engine) := λ A a w, (w, Ok a).
#[global] Instance M_bind {Engine} : MBind (M Engine) := λ A B f m w,
  match m w with
  | (w', Ok a) => f a w'
  | (w', Raise e) => (w', Raise e)
  end.

(** The five configuration attributes agree. *)
Definition same_config {Engine} (σ σ' : FieldDataProcessor Engine) : Prop :=
  db_path σ' = db_path σ ∧
  sql_query σ' = sql_query σ ∧
  columns_to_rename σ' = columns_to_rename σ ∧
  values_to_rename σ' = values_to_rename σ ∧
  weather_map_data σ' = weather_map_data σ.

(** The public operations, as calls a client can make. *)
Inductive call : Type :=
  | IngestSqlData
  | RenameColumns
  | ApplyCorrections (column_name abs_column : string)
  | WeatherStationMapping
  | Process.

Section FieldDataProcessor.
Context {Engine : Type}.

(** The collaborators imported from [data_ingestion]. *)
Variable create_db_engine : string → result Engine.
Variable query_data : Engine → string → result DataFrame.
Variable read_from_web_CSV : string → result DataFrame.

Abbreviation FDP := (FieldDataProcessor Engine).
Abbreviation Meth := (M Engine).

Definition get_self : Meth FDP := λ w, (w, Ok (self w)).

Definition lift {A} (r : result A) : Meth A := λ w, (w, r).

(** [self.engine = e] and [self.df = t]: one attribute is rebound, the
    others are kept. *)
Definition with_engine (e : Engine) (σ : FDP) : FDP :=
  {| db_path := db_path σ; sql_query := sql_query σ;
     columns_to_rename := columns_to_rename σ;
     values_to_rename := values_to_rename σ;
     weather_map_data := weather_map_data σ;
     df := df σ; engine := Some e; logger := logger σ |}.

Definition with_df (t : DataFrame) (σ : FDP) : FDP :=
  {| db_path := db_path σ; sql_query := sql_query σ;
     columns_to_rename := columns_to_rename σ;
     values_to_rename := values_to_rename σ;
     weather_map_data := weather_map_data σ;
     df := Some t; engine := engine σ; logger := logger σ |}.

Definition set_engine (e : Engine) : Meth unit := λ w,
  ({| self := with_engine e (self w); console := console w |}, Ok ()).

Definition set_df (t : DataFrame) : Meth unit := λ w,
  ({| self := with_df t (self w); console := console w |}, Ok ()).

(** [self.logger.info(msg)]. *)
Definition log_info (msg : string) : Meth unit := λ w,
  ({| self := self w;
      console := Logger_info (logger (self w)) msg (console w) |}, Ok ()).

(** [__init__]: the five configuration attributes, the logger, and an
    empty table and engine. *)
Definition __init__ (config_params : ConfigParams) (logging_level : string)
    (lg : Logger) : FDP :=
  {| db_path := cfg_db_path config_params;
     sql_query := cfg_sql_query config_params;
     columns_to_rename := cfg_columns_to_rename config_params;
     values_to_rename := cfg_values_to_rename config_params;
     weather_map_data := cfg_weather_mapping_csv config_params;
     df := None; engine := None;
     logger := initialize_logging lg logging_level |}.

Definition ingest_sql_data : Meth DataFrame :=
  σ ← get_self;
  e ← lift (create_db_engine (db_path σ));
  set_engine e;;
  σ ← get_self;
  t ← lift (query_data e (sql_query σ));
  set_df t;;
  log_info "Sucessfully loaded data.";;
  mret t.

(** [list(d.keys())[0], list(d.values())[0]]. *)
Definition first_item (d : list (string * string)) : result (string * string) :=
  match d with
  | [] => Raise IndexError
  | kv :: _ => Ok kv
  end.

(** [self.df.columns], [self.df.rename]: attribute access on the table. *)
Definition df_attr : Meth DataFrame :=
  σ ← get_self;
  match df σ with
  | None => lift (Raise AttributeError)
  | Some t => mret t
  end.

(** [self.df[...]]: subscripting the table. *)
Definition df_item : Meth DataFrame :=
  σ ← get_self;
  match df σ with
  | None => lift (Raise TypeError)
  | Some t => mret t
  end.

Definition rename_columns : Meth unit :=
  σ ← get_self;
  '(column1, column2) ← lift (first_item (columns_to_rename σ));
  t ← df_attr;
  let temp_name := temp_name_loop (df_columns t) "__temp_name_for_swap__" in
  log_info ("Swapped columns: " +:+ column1 +:+ " with " +:+ column2);;
  t ← df_attr;
  set_df (df_rename (<[column2 := column1]> {[column1 := temp_name]}) t);;
  t ← df_attr;
  set_df (df_rename {[temp_name := column2]} t).

Definition apply_corrections (column_name abs_column : string) : Meth unit :=
  t ← df_item;
  a ← lift (df_getitem abs_column t);
  a ← lift (selection_abs a);
  t ← df_item;
  t ← lift (df_setitem abs_column a t);
  set_df t;;
  t ← df_item;
  c ← lift (df_getitem column_name t);
  σ ← get_self;
  c ← lift (selection_apply_get (values_to_rename σ) (df_index t) c);
  t ← df_item;
  t ← lift (df_setitem column_name c t);
  set_df t.

Definition weather_station_mapping : Meth DataFrame :=
  σ ← get_self;
  t ← lift (read_from_web_CSV (weather_map_data σ));
  mret t.

Definition process : Meth unit :=
  ingest_sql_data;;
  rename_columns;;
  apply_corrections "Crop_type" "Elevation".

(** The world a call leaves, whether it returned or raised. *)
Definition after (c : call) (w : World Engine) : World Engine :=
  match c with
  | IngestSqlData => (ingest_sql_data w).1
  | RenameColumns => (rename_columns w).1
  | ApplyCorrections column_name abs_column =>
      (apply_corrections column_name abs_column w).1
  | WeatherStationMapping => (weather_station_mapping w).1
  | Process => (process w).1
  end.

End FieldDataProcessor.

(** ** Steps, shapes and postconditions used in the statements *)

Fixpoint underscores (k : nat) : string :=
  match k with
  | 0 => EmptyString
  | S k' => "_" +:+ underscores k'
  end.

(** The table the two [rename] calls leave. *)
Definition swapped (column1 column2 : string) (t : DataFrame) : DataFrame :=
  let temp_name := temp_name_loop (df_columns t) "__temp_name_for_swap__" in
  df_rename {[temp_name := column2]}
    (df_rename (<[column2 := column1]> {[column1 := temp_name]}) t).

(** Where a label that is not the temporary one ends up. *)
Definition relabel (column1 column2 temp_name l : string) : string :=
  if decide (l = column1) then column2
  else if decide (l = column2) then
         (if decide (column1 = temp_name) then column2 else column1)
  else l.

(** [self.df[abs_column] = self.df[abs_column].abs()]. *)
Definition abs_step (abs_column : string) (t : DataFrame) : result DataFrame :=
  a ← df_getitem abs_column t;
  a ← selection_abs a;
  df_setitem abs_column a t.

(** [self.df[column_name] = self.df[column_name].apply(...)]. *)
Definition remap_step (values : gmap cell cell) (column_name : string)
    (t : DataFrame) : result DataFrame :=
  c ← df_getitem column_name t;
  c ← selection_apply_get values (df_index t) c;
  df_setitem column_name c t.

(** The table with [f] applied to every column labelled [key]. *)
Definition map_column (key : string) (f : Series → Series) (t : DataFrame) : DataFrame :=
  {| df_index := df_index t;
     df_data := (λ c, if decide (c.1 = key) then (c.1, f c.2) else c) <$> df_data t |}.

Definition abs_num (c : cell) : cell :=
  match c with
  | Num z => Num (wrap64 (Z.abs z))
  | Str s => Str s
  end.

(** A numeric column after [abs], and a column after the lookup. *)
Definition abs_values (s : Series) : Series := abs_num <$> s.

Definition remapped (values : gmap cell cell) (s : Series) : Series :=
  (λ crop, dict_get values crop crop) <$> s.

Definition numeric (s : Series) : Prop := Forall (λ c, ∃ z, c = Num z) s.

(** The cells of an [int64] column: numbers within the 64-bit range. *)
Definition int64_column (s : Series) : Prop :=
  Forall (λ c, ∃ z, c = Num z ∧ is_int64 z) s.

(** Every column has one cell per row. *)
Definition well_formed (t : DataFrame) : Prop :=
  Forall (λ c, length c.2 = df_index t) (df_data t).

Definition selection_map (f : Series → Series) (sel : selection) : selection :=
  match sel with
  | OneSeries s => OneSeries (f s)
  | SubFrame cols => SubFrame (f <$> cols)
  end.

Definition selection_columns (sel : selection) : list Series :=
  match sel with
  | OneSeries s => [s]
  | SubFrame cols => cols
  end.


(** What [Series.abs] gives on an [int64] column: every value other than
    the minimum becomes its absolute value, hence non-negative and of the
    same magnitude; the minimum stays. *)
Definition abs_corrected_int64 (abs_column : string) (t t' : DataFrame) : Prop :=
  ∀ i s, df_data t !! i = Some (abs_column, s) →
    ∃ s', df_data t' !! i = Some (abs_column, s') ∧
      Forall2 (λ c c', ∃ z z', c = Num z ∧ c' = Num z' ∧
                 (z ≠ int64_min → z' = Z.abs z ∧ (0 ≤ z')%Z ∧ Z.abs z' = Z.abs z) ∧
                 (z = int64_min → z' = int64_min)) s s'.

(** What it asks of the categorical column: a cell whose value is a key of
    the mapping holds the mapped value, any other cell is unchanged. *)
Definition values_corrected (values : gmap cell cell) (column_name : string)
    (t t' : DataFrame) : Prop :=
  ∀ i s, df_data t !! i = Some (column_name, s) →
    ∃ s', df_data t' !! i = Some (column_name, s') ∧ length s' = length s ∧
      ∀ j c, s !! j = Some c →
        (∀ v, values !! c = Some v → s' !! j = Some v) ∧
        (values !! c = None → s' !! j = Some c).

(** ** Sample configurations, tables and collaborators *)

Definition survey_config : ConfigParams :=
  {| cfg_db_path := "sqlite:///Maji_Ndogo_farm_survey_small.db";
     cfg_sql_query := "SELECT * FROM geographic_features";
     cfg_columns_to_rename := [("Annual_yield", "Crop_type"); ("Crop_type", "Annual_yield")];
     cfg_values_to_rename := {[ Str "cassaval" := Str "cassava"; Str "wheatn" := Str "wheat" ]};
     cfg_weather_mapping_csv := "https://example.org/weather_mapping.csv" |}.

Definition quiet_logger : Logger := {| disabled := false; level := 0; handlers := 0 |}.

(** An instance as [__init__] leaves it, then given a table. *)
Definition loaded (cfg : ConfigParams) (t : DataFrame) : World unit :=
  {| self := with_df t (__init__ cfg "INFO" quiet_logger); console := [] |}.

Definition yield_table : DataFrame :=
  {| df_index := 2;
     df_data := [ ("Elevation", [Num (-5); Num 10]);
                  ("Annual_yield", [Str "maize"; Str "wheatn"]);
                  ("Crop_type", [Num 3; Num 4]) ] |}.

Definition field_config : ConfigParams :=
  {| cfg_db_path := "sqlite:///fields.db";
     cfg_sql_query := "SELECT Crop_type, Elevation, Field_A FROM fields";
     cfg_columns_to_rename := [("Field_A", "Field_B")];
     cfg_values_to_rename := ∅;
     cfg_weather_mapping_csv := EmptyString |}.

Definition field_table : DataFrame :=
  {| df_index := 2;
     df_data := [ ("Crop_type", [Str "maize"; Str "tea"]);
                  ("Elevation", [Num 7; Num (-2)]);
                  ("Field_A", [Num 1; Num 2]) ] |}.

(** A table without the first name of the pair. *)
Definition crop_table : DataFrame :=
  {| df_index := 2;
     df_data := [ ("Crop_type", [Str "maize"; Str "tea"]);
                  ("Elevation", [Num (-5); Num 10]) ] |}.

(** The scenario of the specification, with a third crop to fill the row. *)
Definition scenario_config : ConfigParams :=
  {| cfg_db_path := "sqlite:///survey.db";
     cfg_sql_query := "SELECT Elevation, Crop_type FROM fields";
     cfg_columns_to_rename := [("Elevation", "Elevation")];
     cfg_values_to_rename := {[ Str "unknown_code" := Str "wheat" ]};
     cfg_weather_mapping_csv := EmptyString |}.

Definition scenario_table : DataFrame :=
  {| df_index := 3;
     df_data := [ ("Elevation", [Num (-5); Num 10; Num (-3)]);
                  ("Crop_type", [Str "maize"; Str "unknown_code"; Str "maize"]) ] |}.



(** A table whose crops are integer codes. *)
Definition coded_table : DataFrame :=
  {| df_index := 2;
     df_data := [ ("Elevation", [Num 3; Num 4]);
                  ("Crop_type", [Num (-1); Num 2]) ] |}.

Definition coded_config : ConfigParams :=
  {| cfg_db_path := "sqlite:///survey.db";
     cfg_sql_query := "SELECT Elevation, Crop_type FROM fields";
     cfg_columns_to_rename := [("Elevation", "Elevation")];
     cfg_values_to_rename := {[ Num (-1) := Num 0 ]};
     cfg_weather_mapping_csv := EmptyString |}.

Definition elevation_table : DataFrame :=
  {| df_index := 3; df_data := [ ("Elevation", [Num (-5); Num 10; Num (-3)]) ] |}.

(** One database file exists; it answers two queries. *)
Definition sample_create_db_engine (path : string) : result unit :=
  if decide (path = "sqlite:///survey.db") then Ok ()
  else Raise (ExternalError "unable to open database file").

Definition sample_query_data (_ : unit) (query : string) : result DataFrame :=
  if decide (query = "SELECT Elevation, Crop_type FROM fields") then Ok scenario_table
  else if decide (query = "SELECT Elevation FROM fields") then Ok elevation_table
  else Raise (ExternalError "no such table").

Definition sample_read_from_web_CSV (uri : string) : result DataFrame :=
  Raise (ExternalError "name resolution failed").

Definition fresh (cfg : ConfigParams) : World unit :=
  {| self := __init__ cfg "INFO" quiet_logger; console := [] |}.

Definition missing_db_config : ConfigParams :=
  {| cfg_db_path := "sqlite:///nowhere.db";
     cfg_sql_query := "SELECT Elevation, Crop_type FROM fields";
     cfg_columns_to_rename := [("Elevation", "Elevation")];
     cfg_values_to_rename := {[ Str "unknown_code" := Str "wheat" ]};
     cfg_weather_mapping_csv := EmptyString |}.

Definition elevation_config : ConfigParams :=
  {| cfg_db_path := "sqlite:///survey.db";
     cfg_sql_query := "SELECT Elevation FROM fields";
     cfg_columns_to_rename := [("Elevation", "Elevation")];
     cfg_values_to_rename := {[ Str "unknown_code" := Str "wheat" ]};
     cfg_weather_mapping_csv := EmptyString |}.

(** ** What a call hands back, and the attributes that carry data *)

(** Every attribute except the logger agrees. *)
Definition same_data {Engine} (σ σ' : FieldDataProcessor Engine) : Prop :=
  db_path σ' = db_path σ ∧
  sql_query σ' = sql_query σ ∧
  columns_to_rename σ' = columns_to_rename σ ∧
  values_to_rename σ' = values_to_rename σ ∧
  weather_map_data σ' = weather_map_data σ ∧
  df σ' = df σ ∧
  engine σ' = engine σ.

Section Outcomes.
Context {Engine : Type}.
Variable create_db_engine : string → result Engine.
Variable query_data : Engine → string → result DataFrame.
Variable read_from_web_CSV : string → result DataFrame.

(** The value a call returns (a table, or [None]) or the exception it
    raises. *)
Definition outcome (c : call) (w : World Engine) : result (option DataFrame) :=
  match c with
  | IngestSqlData =>
      match (ingest_sql_data create_db_engine query_data w).2 with
      | Ok t => Ok (Some t)
      | Raise e => Raise e
      end
  | RenameColumns =>
      match (rename_columns w).2 with
      | Ok _ => Ok None
      | Raise e => Raise e
      end
  | ApplyCorrections column_name abs_column =>
      match (apply_corrections column_name abs_column w).2 with
      | Ok _ => Ok None
      | Raise e => Raise e
      end
  | WeatherStationMapping =>
      match (weather_station_mapping read_from_web_CSV w).2 with
      | Ok t => Ok (Some t)
      | Raise e => Raise e
      end
  | Process =>
      match (process create_db_engine query_data w).2 with
      | Ok _ => Ok None
      | Raise e => Raise e
      end
  end.

End Outcomes.

(** * Proofs *)

(** ** Properties of the temporary label *)

Lemma append_empty_r (s : string) : s +:+ EmptyString = s.
Proof. induction s as [|a s IH]; [done | exact (f_equal (String a) IH)]. Qed.

Lemma append_assoc (s1 s2 s3 : string) : (s1 +:+ s2) +:+ s3 = s1 +:+ (s2 +:+ s3).
Proof. induction s1 as [|a s1 IH]; [done | exact (f_equal (String a) IH)]. Qed.

Lemma temp_name_loop_eq (cols : list string) (temp_name : string) :
  temp_name_loop cols temp_name =
  if bool_decide (temp_name ∈ cols) then temp_name_loop cols (temp_name +:+ "_")
  else temp_name.
Proof. funelim (temp_name_loop cols temp_name); by rewrite e. Qed.

Lemma temp_name_loop_fresh (cols : list string) (temp_name : string) :
  temp_name_loop cols temp_name ∉ cols.
Proof.
  funelim (temp_name_loop cols temp_name).
  - assumption.
  - eapply bool_decide_eq_false_1, e.
Qed.

Lemma temp_name_loop_shape (cols : list string) (temp_name : string) :
  ∃ k, temp_name_loop cols temp_name = temp_name +:+ underscores k
       ∧ ∀ j, j < k → (temp_name +:+ underscores j) ∈ cols.
Proof.
  funelim (temp_name_loop cols temp_name).
  - destruct H as (k & Hk & Hbelow). exists (S k). split.
    + rewrite Hk. by rewrite append_assoc.
    + intros [|j] Hj.
      * change (underscores 0) with EmptyString. rewrite append_empty_r.
        eapply bool_decide_eq_true_1, e.
      * specialize (Hbelow j ltac:(lia)). by rewrite append_assoc in Hbelow.
  - exists 0. split; [by rewrite append_empty_r | intros; lia].
Qed.

(** ** The two renames of [rename_columns] *)

Lemma relabel_spec (column1 column2 temp_name l : string) :
  l ≠ temp_name →
  let l1 := dict_get (<[column2 := column1]> {[column1 := temp_name]}) l l in
  dict_get {[temp_name := column2]} l1 l1 = relabel column1 column2 temp_name l.
Proof.
  intros Hl. unfold relabel, dict_get. cbn zeta.
  destruct (decide (l = column1)) as [->|Hne1].
  - destruct (decide (column1 = column2)) as [->|Hne].
    + rewrite lookup_insert_eq. simpl. by rewrite lookup_singleton_ne.
    + rewrite lookup_insert_ne by done. rewrite lookup_singleton_eq. simpl.
      by rewrite lookup_singleton_eq.
  - destruct (decide (l = column2)) as [->|Hne2].
    + rewrite lookup_insert_eq. simpl.
      destruct (decide (column1 = temp_name)) as [->|Hne].
      * by rewrite lookup_singleton_eq.
      * by rewrite lookup_singleton_ne.
    + rewrite lookup_insert_ne by done. rewrite lookup_singleton_ne by done. simpl.
      by rewrite lookup_singleton_ne.
Qed.

Lemma swapped_index (column1 column2 : string) (t : DataFrame) :
  df_index (swapped column1 column2 t) = df_index t.
Proof. reflexivity. Qed.

Lemma swapped_lookup (column1 column2 : string) (t : DataFrame) (i : nat) l s :
  df_data t !! i = Some (l, s) →
  df_data (swapped column1 column2 t) !! i =
    Some (relabel column1 column2
            (temp_name_loop (df_columns t) "__temp_name_for_swap__") l, s).
Proof.
  intros Hi. unfold swapped. simpl.
  rewrite !list_lookup_fmap, Hi. simpl. f_equal. f_equal.
  apply relabel_spec. intros ->.
  apply (temp_name_loop_fresh (df_columns t) "__temp_name_for_swap__").
  unfold df_columns. apply list_elem_of_fmap. exists (temp_name_loop (df_columns t) "__temp_name_for_swap__", s).
  split; [done|]. by eapply list_elem_of_lookup_2.
Qed.

Lemma swapped_length (column1 column2 : string) (t : DataFrame) :
  length (df_data (swapped column1 column2 t)) = length (df_data t).
Proof. unfold swapped. simpl. by rewrite !length_fmap. Qed.

Lemma swapped_values (column1 column2 : string) (t : DataFrame) :
  (df_data (swapped column1 column2 t)).*2 = (df_data t).*2.
Proof.
  unfold swapped. simpl. rewrite <- !list_fmap_compose.
  apply list_fmap_ext. by intros i [l s] _.
Qed.

(** Selecting by a label after a relabelling that sends exactly the
    columns labelled [key] to [key']. *)
Lemma select_relabelled (key key' : string) (t t' : DataFrame) (f : string → string) :
  (∀ i l s, df_data t !! i = Some (l, s) → df_data t' !! i = Some (f l, s)) →
  length (df_data t') = length (df_data t) →
  (∀ l, l ∈ df_columns t → f l = key' ↔ l = key) →
  df_select key' t' = df_select key t.
Proof.
  unfold df_select, df_columns.
  destruct t as [n data], t' as [n' data']. simpl. clear n n'.
  revert data'. induction data as [|[l s] data IH]; intros data' Hpos Hlen Hf.
  - destruct data'; [done | simpl in Hlen; lia].
  - destruct data' as [|[l' s'] data']; [simpl in Hlen; lia|].
    pose proof (Hpos 0 l s eq_refl) as H0. simpl in H0. injection H0 as -> ->.
    rewrite !filter_cons. simpl.
    assert (Hrest : (filter (λ c, c.1 = key') data').*2 = (filter (λ c, c.1 = key) data).*2).
    { apply IH.
      - intros i l0 s0 Hi. apply (Hpos (S i) l0 s0 Hi).
      - simpl in Hlen. lia.
      - intros l0 Hl0. apply Hf. simpl. by apply list_elem_of_further. }
    pose proof (Hf l ltac:(simpl; apply list_elem_of_here)) as Hl.
    repeat case_decide; simpl in *; first [exact Hrest | by f_equal | exfalso; tauto].
Qed.

(** ** Running [rename_columns] *)

Section Rename.
Context {Engine : Type}.
Implicit Types (w : World Engine) (t : DataFrame).

(** With a rename pair configured and a table loaded the method returns,
    having logged one message and rebound [self.df]. *)
Lemma rename_columns_run w column1 column2 rest t :
  columns_to_rename (self w) = (column1, column2) :: rest →
  df (self w) = Some t →
  rename_columns w =
    ({| self := with_df (swapped column1 column2 t) (self w);
        console := Logger_info (logger (self w))
                     ("Swapped columns: " +:+ column1 +:+ " with " +:+ column2)
                     (console w) |}, Ok ()).
Proof.
  intros Hpair Ht.
  unfold rename_columns, mbind, M_bind, get_self, lift, df_attr, mbind, M_bind, get_self.
  rewrite Hpair. simpl. rewrite Ht. simpl. unfold mret, M_ret. simpl.
  rewrite Ht. reflexivity.
Qed.

Lemma rename_columns_no_pair w :
  columns_to_rename (self w) = [] → rename_columns w = (w, Raise IndexError).
Proof.
  intros Hpair. unfold rename_columns, mbind, M_bind, get_self, lift.
  by rewrite Hpair.
Qed.

Lemma rename_columns_no_table w :
  df (self w) = None →
  rename_columns w = (w, Raise (if columns_to_rename (self w) is [] then IndexError
                                else AttributeError)).
Proof.
  intros Ht.
  unfold rename_columns, mbind, M_bind, get_self, lift, df_attr, mbind, M_bind, get_self.
  destruct (columns_to_rename (self w)) as [|[c1 c2] rest]; simpl; [done|].
  by rewrite Ht.
Qed.

(** No run of [rename_columns] ends in a [KeyError]. *)
Lemma rename_columns_no_KeyError w key :
  (rename_columns w).2 ≠ Raise (KeyError key).
Proof.
  destruct (df (self w)) as [t|] eqn:Ht.
  - destruct (columns_to_rename (self w)) as [|[c1 c2] rest] eqn:Hpair.
    + by rewrite rename_columns_no_pair.
    + by rewrite (rename_columns_run w c1 c2 rest t).
  - rewrite rename_columns_no_table by done.
    by destruct (columns_to_rename (self w)).
Qed.

End Rename.

(** ** The rename step *)

Section RenameClaims.
Context {Engine : Type}.
Implicit Types (w : World Engine) (t : DataFrame).

(** C1. When both names of the configured pair label columns of the table,
    [rename_columns] returns and swaps the two names: selecting by the
    second name now yields what the first name selected before and the
    other way round, and column by column the label changes while the
    values stay. *)
Theorem rename_columns_swaps w column1 column2 rest t :
  columns_to_rename (self w) = (column1, column2) :: rest →
  df (self w) = Some t →
  column1 ∈ df_columns t →
  column2 ∈ df_columns t →
  ∃ w' t',
    rename_columns w = (w', Ok ()) ∧ df (self w') = Some t' ∧
    df_select column2 t' = df_select column1 t ∧
    df_select column1 t' = df_select column2 t ∧
    ∀ i l s, df_data t !! i = Some (l, s) →
      (l = column1 → df_data t' !! i = Some (column2, s)) ∧
      (l = column2 → df_data t' !! i = Some (column1, s)).
Proof.
  intros Hpair Ht H1 H2.
  eexists _, (swapped column1 column2 t).
  split; [by apply (rename_columns_run w column1 column2 rest t)|]. split; [done|].
  set (temp := temp_name_loop (df_columns t) "__temp_name_for_swap__").
  assert (Hfresh : temp ∉ df_columns t) by apply temp_name_loop_fresh.
  assert (Hne1 : column1 ≠ temp) by (intros ->; done).
  assert (Hne2 : column2 ≠ temp) by (intros ->; done).
  split; [|split].
  - apply (select_relabelled _ _ _ _ (relabel column1 column2 temp)).
    + intros i l s Hi. by apply swapped_lookup.
    + apply swapped_length.
    + intros l _. unfold relabel. repeat case_decide; split; congruence.
  - apply (select_relabelled _ _ _ _ (relabel column1 column2 temp)).
    + intros i l s Hi. by apply swapped_lookup.
    + apply swapped_length.
    + intros l _. unfold relabel. repeat case_decide; split; congruence.
  - intros i l s Hi. rewrite (swapped_lookup _ _ _ _ _ _ Hi). fold temp.
    unfold relabel. split; intros ->; repeat case_decide; congruence.
Qed.

(** C10. [rename_columns] touches labels only: the row count, the number
    of columns and the values of every column are as before, and a column
    named by neither member of the pair keeps its label. *)
Theorem rename_columns_labels_only w column1 column2 rest t :
  columns_to_rename (self w) = (column1, column2) :: rest →
  df (self w) = Some t →
  ∃ w' t',
    rename_columns w = (w', Ok ()) ∧ df (self w') = Some t' ∧
    df_index t' = df_index t ∧
    length (df_data t') = length (df_data t) ∧
    (df_data t').*2 = (df_data t).*2 ∧
    ∀ i l s, df_data t !! i = Some (l, s) → l ≠ column1 → l ≠ column2 →
      df_data t' !! i = Some (l, s).
Proof.
  intros Hpair Ht.
  eexists _, (swapped column1 column2 t).
  split; [by apply (rename_columns_run w column1 column2 rest t)|]. split; [done|].
  split; [apply swapped_index|]. split; [apply swapped_length|].
  split; [apply swapped_values|].
  intros i l s Hi Hl1 Hl2. rewrite (swapped_lookup _ _ _ _ _ _ Hi).
  unfold relabel. by rewrite !decide_False.
Qed.

(** C3. On a table with columns [Crop_type, Elevation, Field_A] and the
    pair [{Field_A: Field_B}] the method returns, and the third column is
    then named [Field_B] with the values it had. *)
Theorem rename_columns_field_scenario w n crop elevation field :
  columns_to_rename (self w) = [("Field_A", "Field_B")] →
  df (self w) = Some {| df_index := n;
                        df_data := [("Crop_type", crop); ("Elevation", elevation);
                                    ("Field_A", field)] |} →
  ∃ w',
    rename_columns w = (w', Ok ()) ∧
    df (self w') = Some {| df_index := n;
                           df_data := [("Crop_type", crop); ("Elevation", elevation);
                                       ("Field_B", field)] |}.
Proof.
  intros Hpair Ht. eexists. split; [by eapply rename_columns_run|].
  simpl. f_equal.
Qed.

End RenameClaims.

Lemma rename_columns_swaps_witness :
  ∃ w' t',
    rename_columns (loaded survey_config yield_table) = (w', Ok ()) ∧
    df (self w') = Some t' ∧
    df_select "Crop_type" t' = df_select "Annual_yield" yield_table ∧
    df_select "Annual_yield" t' = df_select "Crop_type" yield_table ∧
    ∀ i l s, df_data yield_table !! i = Some (l, s) →
      (l = "Annual_yield" → df_data t' !! i = Some ("Crop_type", s)) ∧
      (l = "Crop_type" → df_data t' !! i = Some ("Annual_yield", s)).
Proof.
  apply (rename_columns_swaps (loaded survey_config yield_table)
           "Annual_yield" "Crop_type" [("Crop_type", "Annual_yield")] yield_table).
  - reflexivity.
  - reflexivity.
  - apply (bool_decide_unpack _). vm_compute. exact I.
  - apply (bool_decide_unpack _). vm_compute. exact I.
Defined.

Lemma rename_columns_labels_only_witness :
  ∃ w' t',
    rename_columns (loaded survey_config yield_table) = (w', Ok ()) ∧
    df (self w') = Some t' ∧
    df_index t' = df_index yield_table ∧
    length (df_data t') = length (df_data yield_table) ∧
    (df_data t').*2 = (df_data yield_table).*2 ∧
    ∀ i l s, df_data yield_table !! i = Some (l, s) →
      l ≠ "Annual_yield" → l ≠ "Crop_type" → df_data t' !! i = Some (l, s).
Proof.
  apply (rename_columns_labels_only (loaded survey_config yield_table)
           "Annual_yield" "Crop_type" [("Crop_type", "Annual_yield")] yield_table).
  - reflexivity.
  - reflexivity.
Defined.

Lemma rename_columns_field_scenario_witness :
  ∃ w',
    rename_columns (loaded field_config field_table) = (w', Ok ()) ∧
    df (self w') = Some {| df_index := 2;
                           df_data := [ ("Crop_type", [Str "maize"; Str "tea"]);
                                        ("Elevation", [Num 7; Num (-2)]);
                                        ("Field_B", [Num 1; Num 2]) ] |}.
Proof.
  apply (rename_columns_field_scenario (loaded field_config field_table) 2
           [Str "maize"; Str "tea"] [Num 7; Num (-2)] [Num 1; Num 2]).
  - reflexivity.
  - reflexivity.
Defined.

(** C4. The loop that picks the temporary label ends for every list of
    column labels: it returns the base marker followed by some number [k]
    of underscores, every shorter candidate is a label of the table, and
    the returned label is not. *)
Theorem temp_name_never_collides (cols : list string) :
  ∃ k,
    temp_name_loop cols "__temp_name_for_swap__"
      = "__temp_name_for_swap__" +:+ underscores k ∧
    (∀ j, j < k → ("__temp_name_for_swap__" +:+ underscores j) ∈ cols) ∧
    temp_name_loop cols "__temp_name_for_swap__" ∉ cols.
Proof.
  destruct (temp_name_loop_shape cols "__temp_name_for_swap__") as (k & Hk & Hbelow).
  exists k. split; [done|]. split; [done|]. apply temp_name_loop_fresh.
Qed.

Example temp_name_marker_taken :
  temp_name_loop ["a"; "__temp_name_for_swap__"; "__temp_name_for_swap___"]
    "__temp_name_for_swap__" = "__temp_name_for_swap____".
Proof. reflexivity. Qed.

(** C2. The docstring of [rename_columns] promises a [KeyError] when a
    configured column is missing.  On a table without [Annual_yield] the
    method returns normally instead, and [Crop_type] is relabelled. *)
Theorem rename_columns_missing_column_returns :
  ∃ w',
    rename_columns (loaded survey_config crop_table) = (w', Ok ()) ∧
    ("Annual_yield" ∉ df_columns crop_table) ∧
    df (self w') = Some {| df_index := 2;
                           df_data := [ ("Annual_yield", [Str "maize"; Str "tea"]);
                                        ("Elevation", [Num (-5); Num 10]) ] |}.
Proof.
  eexists. split; [|split].
  - by apply (rename_columns_run (loaded survey_config crop_table)
                "Annual_yield" "Crop_type" [("Crop_type", "Annual_yield")] crop_table).
  - apply (bool_decide_unpack _). vm_compute. exact I.
  - reflexivity.
Qed.

(** ** Running [apply_corrections] *)

Section Corrections.
Context {Engine : Type}.
Implicit Types (w : World Engine) (t : DataFrame).

Lemma apply_corrections_no_table w column_name abs_column :
  df (self w) = None →
  apply_corrections column_name abs_column w = (w, Raise TypeError).
Proof.
  intros Ht. unfold apply_corrections, mbind, M_bind, df_item, mbind, M_bind, get_self.
  by rewrite Ht.
Qed.

(** The method runs the two steps in order on the table, and keeps what
    the first has assigned when the second raises. *)
Lemma apply_corrections_steps w column_name abs_column t :
  df (self w) = Some t →
  apply_corrections column_name abs_column w =
    match abs_step abs_column t with
    | Raise e => (w, Raise e)
    | Ok t1 =>
        match remap_step (values_to_rename (self w)) column_name t1 with
        | Raise e => ({| self := with_df t1 (self w); console := console w |}, Raise e)
        | Ok t2 => ({| self := with_df t2 (self w); console := console w |}, Ok ())
        end
    end.
Proof.
  intros Ht.
  unfold apply_corrections, abs_step, remap_step.
  cbv [mbind M_bind result_bind df_item get_self lift mret M_ret set_df].
  rewrite Ht.
  destruct (df_getitem abs_column t) as [a|e]; [|done].
  destruct (selection_abs a) as [a'|e]; [|done].
  rewrite Ht.
  destruct (df_setitem abs_column a' t) as [t1|e]; [|done]. simpl.
  destruct (df_getitem column_name t1) as [c|e]; [|done].
  destruct (selection_apply_get (values_to_rename (self w)) (df_index t1) c) as [c'|e]; [|done].
  by destruct (df_setitem column_name c' t1) as [t2|e].
Qed.

End Corrections.

(** ** Reading a selection and writing it back *)

Lemma select_lookup (key : string) (t : DataFrame) (i : nat) (s : Series) :
  df_data t !! i = Some (key, s) → s ∈ df_select key t.
Proof.
  intros Hi. unfold df_select. apply list_elem_of_fmap. exists (key, s).
  split; [done|]. apply list_elem_of_filter. split; [done|].
  by eapply list_elem_of_lookup_2.
Qed.

Lemma select_columns (key : string) (t : DataFrame) :
  key ∈ df_columns t ↔ df_select key t ≠ [].
Proof.
  unfold df_columns, df_select. split.
  - intros Hin Hnil. apply list_elem_of_fmap in Hin as ([l s] & Hkey & Hin).
    simpl in Hkey. subst key.
    assert (Hs : s ∈ (filter (λ c, c.1 = l) (df_data t)).*2).
    { apply list_elem_of_fmap. exists (l, s). split; [done|].
      by apply list_elem_of_filter. }
    rewrite Hnil in Hs. by apply elem_of_nil in Hs.
  - intros Hne. destruct (filter (λ c, c.1 = key) (df_data t)) as [|[l s] rest] eqn:Hf;
      [done|].
    assert (Hin : (l, s) ∈ filter (λ c, c.1 = key) (df_data t))
      by (rewrite Hf; apply list_elem_of_here).
    apply list_elem_of_filter in Hin as [Hl Hin]. simpl in Hl. subst l.
    apply list_elem_of_fmap. by exists (key, s).
Qed.

Lemma getitem_columns (key : string) (t : DataFrame) (sel : selection) :
  df_getitem key t = Ok sel →
  selection_columns sel = df_select key t ∧ key ∈ df_columns t.
Proof.
  unfold df_getitem. intros Hget. rewrite select_columns.
  destruct (df_select key t) as [|s [|s2 rest]]; inversion Hget; subst; simpl;
    (split; [reflexivity | discriminate]).
Qed.

Lemma getitem_missing (key : string) (t : DataFrame) :
  key ∉ df_columns t → df_getitem key t = Raise (KeyError key).
Proof.
  rewrite select_columns. intros Hnil. unfold df_getitem.
  destruct (df_select key t); [done|]. by destruct Hnil.
Qed.

Lemma assign_select (key : string) (f : Series → Series) (data : list (string * Series)) :
  assign key (f <$> (filter (λ c, c.1 = key) data).*2) data =
  (λ c, if decide (c.1 = key) then (c.1, f c.2) else c) <$> data.
Proof.
  induction data as [|[l s] data IH]; [done|].
  rewrite filter_cons. simpl.
  destruct (decide (l = key)) as [->|Hne]; simpl; f_equal; apply IH.
Qed.

(** Writing back what was read, with [f] applied to each column read. *)
Lemma setitem_mapped (key : string) (f : Series → Series) (t : DataFrame) (sel : selection) :
  df_getitem key t = Ok sel →
  df_setitem key (selection_map f sel) t = Ok (map_column key f t).
Proof.
  intros Hget. destruct (getitem_columns _ _ _ Hget) as [Hcols Hin].
  destruct sel as [s|cols]; simpl in *.
  - rewrite bool_decide_eq_true_2 by done. f_equal. unfold map_column. f_equal.
    apply list_fmap_ext. intros i [l s0] Hi. simpl.
    destruct (decide (l = key)) as [->|]; [|done].
    apply select_lookup in Hi. rewrite <- Hcols in Hi.
    apply list_elem_of_singleton in Hi. by subst.
  - rewrite decide_True by (by rewrite Hcols, length_fmap).
    f_equal. unfold map_column. f_equal. rewrite Hcols. apply assign_select.
Qed.


(** ** The absolute-value step *)

Lemma Series_abs_ok (s s' : Series) :
  Series_abs s = Ok s' → numeric s ∧ s' = abs_num <$> s.
Proof.
  revert s'. induction s as [|c s IH]; intros s'; simpl.
  - intros [= <-]. split; [constructor | done].
  - destruct c as [z|x]; simpl; [|done].
    destruct (Series_abs s) as [r|e]; simpl; [|done].
    intros [= <-]. destruct (IH r eq_refl) as [Hnum ->].
    split; [constructor; eauto | done].
Qed.

Lemma Series_abs_numeric (s : Series) :
  numeric s → Series_abs s = Ok (abs_num <$> s).
Proof.
  induction 1 as [|c s [z ->] _ IH]; simpl; [done|]. by rewrite IH.
Qed.

Lemma frame_abs_ok (cols cols' : list Series) :
  frame_abs cols = Ok cols' →
  Forall numeric cols ∧ cols' = abs_values <$> cols.
Proof.
  revert cols'. induction cols as [|s cols IH]; intros cols'; simpl.
  - intros [= <-]. split; [constructor | done].
  - destruct (Series_abs s) as [s'|e] eqn:Hs; simpl; [|done].
    destruct (frame_abs cols) as [r|e]; simpl; [|done]. intros [= <-].
    apply Series_abs_ok in Hs as [Hnum ->].
    destruct (IH r eq_refl) as [Hall ->]. split; [by constructor | done].
Qed.

Lemma frame_abs_numeric (cols : list Series) :
  Forall numeric cols → frame_abs cols = Ok (abs_values <$> cols).
Proof.
  induction 1 as [|s cols Hs _ IH]; simpl; [done|].
  rewrite Series_abs_numeric by done. simpl. by rewrite IH.
Qed.

Lemma selection_abs_ok (sel sel' : selection) :
  selection_abs sel = Ok sel' →
  Forall numeric (selection_columns sel) ∧ sel' = selection_map abs_values sel.
Proof.
  destruct sel as [s|cols]; simpl.
  - destruct (Series_abs s) as [r|e] eqn:Hs; simpl; [|done]. intros [= <-].
    apply Series_abs_ok in Hs as [Hnum ->]. split; [by constructor | done].
  - destruct (frame_abs cols) as [r|e] eqn:Hf; simpl; [|done]. intros [= <-].
    by apply frame_abs_ok in Hf as [Hall ->].
Qed.

Lemma selection_abs_numeric (sel : selection) :
  Forall numeric (selection_columns sel) →
  selection_abs sel = Ok (selection_map abs_values sel).
Proof.
  destruct sel as [s|cols]; simpl; intros Hall.
  - apply Forall_cons in Hall as [Hs _]. by rewrite Series_abs_numeric.
  - by rewrite frame_abs_numeric.
Qed.

Lemma abs_step_ok (key : string) (t t1 : DataFrame) :
  abs_step key t = Ok t1 →
  t1 = map_column key abs_values t ∧
  Forall numeric (df_select key t) ∧ key ∈ df_columns t.
Proof.
  unfold abs_step. destruct (df_getitem key t) as [sel|e] eqn:Hget; simpl; [|done].
  destruct (selection_abs sel) as [sel'|e] eqn:Habs; simpl; [|done].
  apply selection_abs_ok in Habs as [Hnum ->].
  rewrite (setitem_mapped _ _ _ _ Hget). intros [= <-].
  destruct (getitem_columns _ _ _ Hget) as [Hcols Hin]. by rewrite <- Hcols.
Qed.

Lemma abs_step_returns (key : string) (t : DataFrame) :
  key ∈ df_columns t →
  Forall numeric (df_select key t) →
  abs_step key t = Ok (map_column key abs_values t).
Proof.
  intros Hin Hnum. unfold abs_step.
  destruct (df_getitem key t) as [sel|e] eqn:Hget.
  - destruct (getitem_columns _ _ _ Hget) as [Hcols _]. simpl.
    rewrite selection_abs_numeric by (by rewrite Hcols). simpl.
    by apply setitem_mapped.
  - apply select_columns in Hin. unfold df_getitem in Hget.
    by destruct (df_select key t) as [|s [|s2 rest]].
Qed.

(** ** The lookup step *)

Lemma remap_step_ok (values : gmap cell cell) (key : string) (t t2 : DataFrame) :
  well_formed t →
  remap_step values key t = Ok t2 →
  t2 = map_column key (remapped values) t ∧ key ∈ df_columns t.
Proof.
  intros Hwf. unfold remap_step.
  destruct (df_getitem key t) as [sel|e] eqn:Hget; simpl; [|done].
  destruct (getitem_columns _ _ _ Hget) as [_ Hin].
  destruct sel as [s|cols]; cbv [selection_apply_get mbind result_bind].
  - intros Hset.
    pose proof (setitem_mapped key (remapped values) t (OneSeries s) Hget) as Hm.
    assert (Heq : Ok t2 = Ok (map_column key (remapped values) t))
      by (etrans; [symmetry; exact Hset | exact Hm]).
    by injection Heq as ->.
  - destruct (decide (df_index t = 0)) as [Hrows|]; [|done].
    pose proof (setitem_mapped key id t (SubFrame cols) Hget) as Hset.
    unfold selection_map in Hset. rewrite list_fmap_id in Hset.
    rewrite Hset. intros [= <-].
    split; [|done]. unfold map_column. f_equal.
    apply list_fmap_ext. intros i [l s] Hi. simpl.
    destruct (decide (l = key)); [|done]. f_equal.
    unfold well_formed in Hwf. rewrite Forall_lookup in Hwf.
    specialize (Hwf i (l, s) Hi). simpl in Hwf. rewrite Hrows in Hwf.
    by apply nil_length_inv in Hwf as ->.
Qed.


Lemma remap_step_returns (values : gmap cell cell) (key : string) (t : DataFrame) s :
  df_select key t = [s] →
  remap_step values key t = Ok (map_column key (remapped values) t).
Proof.
  intros Hsel. unfold remap_step.
  assert (Hget : df_getitem key t = Ok (OneSeries s)) by (unfold df_getitem; by rewrite Hsel).
  rewrite Hget. cbv [selection_apply_get mbind result_bind].
  apply (setitem_mapped key (remapped values) t (OneSeries s) Hget).
Qed.

Lemma map_column_lookup (key : string) (f : Series → Series) (t : DataFrame) i l s :
  df_data t !! i = Some (l, s) →
  df_data (map_column key f t) !! i = Some (l, if decide (l = key) then f s else s).
Proof.
  intros Hi. unfold map_column. simpl. rewrite list_lookup_fmap, Hi. simpl.
  by destruct (decide (l = key)).
Qed.

Lemma map_column_columns (key : string) (f : Series → Series) (t : DataFrame) :
  df_columns (map_column key f t) = df_columns t.
Proof.
  unfold df_columns, map_column. simpl. rewrite <- list_fmap_compose.
  apply list_fmap_ext. intros i [l s] _. simpl. by case_decide.
Qed.

Lemma select_map_column (key k : string) (f : Series → Series) (t : DataFrame) :
  df_select key (map_column k f t) =
  (if decide (key = k) then f else id) <$> df_select key t.
Proof.
  unfold df_select, map_column. simpl.
  destruct (decide (key = k)) as [->|Hne].
  - induction (df_data t) as [|[l s] data IH]; [done|].
    rewrite fmap_cons, !filter_cons.
    repeat case_decide; simpl in *; simplify_eq;
      first [apply IH | f_equal; apply IH].
  - rewrite list_fmap_id.
    induction (df_data t) as [|[l s] data IH]; [done|].
    rewrite fmap_cons, !filter_cons.
    repeat case_decide; simpl in *; simplify_eq;
      first [apply IH | f_equal; apply IH].
Qed.

(** ** The correction step *)

Lemma wrap64_abs (z : Z) :
  is_int64 z → z ≠ int64_min → wrap64 (Z.abs z) = Z.abs z.
Proof.
  unfold is_int64, int64_min, int64_max, wrap64. intros Hz Hmin.
  rewrite Z.mod_small by lia. lia.
Qed.

Lemma wrap64_abs_min : wrap64 (Z.abs int64_min) = int64_min.
Proof. reflexivity. Qed.

Lemma wrap64_is_int64 (z : Z) : is_int64 (wrap64 z).
Proof.
  unfold is_int64, int64_min, int64_max, wrap64.
  pose proof (Z.mod_pos_bound (z + 9223372036854775808) 18446744073709551616
                ltac:(lia)). lia.
Qed.

Lemma int64_column_numeric (s : Series) : int64_column s → numeric s.
Proof.
  unfold int64_column, numeric. intros Hs.
  eapply Forall_impl; [exact Hs|]. intros c (z & -> & _). eauto.
Qed.

Lemma abs_values_int64 (s : Series) :
  int64_column s →
  Forall2 (λ c c', ∃ z z', c = Num z ∧ c' = Num z' ∧
             (z ≠ int64_min → z' = Z.abs z ∧ (0 ≤ z')%Z ∧ Z.abs z' = Z.abs z) ∧
             (z = int64_min → z' = int64_min)) s (abs_values s).
Proof.
  induction 1 as [|c s (z & -> & Hz) _ IH]; [constructor|].
  constructor; [|exact IH]. exists z, (wrap64 (Z.abs z)).
  split; [done|]. split; [done|]. split.
  - intros Hmin. rewrite wrap64_abs by done.
    repeat split; [apply Z.abs_nonneg | apply Z.abs_idemp].
  - intros ->. apply wrap64_abs_min.
Qed.

Lemma remapped_lookup (values : gmap cell cell) (s : Series) (j : nat) (c : cell) :
  s !! j = Some c →
  (∀ v, values !! c = Some v → remapped values s !! j = Some v) ∧
  (values !! c = None → remapped values s !! j = Some c).
Proof.
  intros Hj. unfold remapped, dict_get.
  split; [intros v Hv | intros Hv]; rewrite list_lookup_fmap, Hj; simpl;
    by rewrite Hv.
Qed.

Section CorrectionClaims.
Context {Engine : Type}.
Implicit Types (w : World Engine) (t : DataFrame).


(** C6, as amended.  On a table whose columns all have one cell per row,
    with the lookup column present and different from the numeric column,
    a call of [apply_corrections] that returns has replaced each cell of
    the lookup column whose value is a key of [values_to_rename] by the
    mapped value and has left the other cells of that column as they
    were. *)
Theorem apply_corrections_remaps w w' column_name abs_column t :
  df (self w) = Some t →
  well_formed t →
  column_name ∈ df_columns t →
  column_name ≠ abs_column →
  apply_corrections column_name abs_column w = (w', Ok ()) →
  ∃ t', df (self w') = Some t' ∧
        values_corrected (values_to_rename (self w)) column_name t t'.
Proof.
  intros Ht Hwf Hin Hne.
  rewrite (apply_corrections_steps w column_name abs_column t Ht).
  destruct (abs_step abs_column t) as [t1|e] eqn:Habs; [|done].
  apply abs_step_ok in Habs as (-> & _ & _).
  set (t1 := map_column abs_column abs_values t).
  destruct (remap_step (values_to_rename (self w)) column_name t1) as [t2|e] eqn:Hstep;
    [|done].
  intros [= <-]. exists t2. split; [done|].
  assert (Hwf1 : well_formed t1).
  { unfold well_formed, t1, map_column in *. simpl.
    rewrite Forall_fmap. eapply Forall_impl; [exact Hwf|].
    intros [l s] Hlen. simpl in *. case_decide; simpl; [|done].
    unfold abs_values. by rewrite length_fmap. }
  apply (remap_step_ok _ _ _ _ Hwf1) in Hstep as [-> _].
  intros i s Hi. exists (remapped (values_to_rename (self w)) s). split; [|split].
  - pose proof (map_column_lookup abs_column abs_values t i column_name s Hi) as H1.
    rewrite decide_False in H1 by done. fold t1 in H1.
    rewrite (map_column_lookup _ _ _ _ _ _ H1). by rewrite decide_True.
  - unfold remapped. by rewrite length_fmap.
  - intros j c Hj. by apply remapped_lookup.
Qed.

(** With both columns present, the numeric one holding numbers and the
    lookup column labelled once, the method returns. *)
Lemma apply_corrections_returns w column_name abs_column t s :
  df (self w) = Some t →
  abs_column ∈ df_columns t →
  Forall numeric (df_select abs_column t) →
  df_select column_name t = [s] →
  ∃ w', apply_corrections column_name abs_column w = (w', Ok ()).
Proof.
  intros Ht Hin Hnum Hsel.
  rewrite (apply_corrections_steps w column_name abs_column t Ht).
  rewrite (abs_step_returns abs_column t Hin Hnum).
  erewrite remap_step_returns; [by eexists|].
  rewrite select_map_column, Hsel. reflexivity.
Qed.

End CorrectionClaims.

Example apply_corrections_scenario :
  ∃ w', apply_corrections "Crop_type" "Elevation" (loaded scenario_config scenario_table)
          = (w', Ok ()) ∧
        df (self w') =
          Some {| df_index := 3;
                  df_data := [ ("Elevation", [Num 5; Num 10; Num 3]);
                               ("Crop_type", [Str "maize"; Str "wheat"; Str "maize"]) ] |}.
Proof. eexists. split; vm_compute; reflexivity. Qed.


Lemma scenario_elevation_int64 :
  Forall int64_column (df_select "Elevation" scenario_table).
Proof.
  change (Forall int64_column [[Num (-5); Num 10; Num (-3)]]).
  apply Forall_cons. split; [|constructor].
  repeat (apply Forall_cons; split;
          [eexists; split; [reflexivity | unfold is_int64, int64_min, int64_max; lia]|]).
  constructor.
Defined.


Lemma scenario_well_formed : well_formed scenario_table.
Proof. repeat constructor. Defined.

Lemma apply_corrections_remaps_witness :
  ∃ t', df (self (apply_corrections "Crop_type" "Elevation"
                    (loaded scenario_config scenario_table)).1) = Some t' ∧
        values_corrected {[ Str "unknown_code" := Str "wheat" ]} "Crop_type"
          scenario_table t'.
Proof.
  apply (apply_corrections_remaps (loaded scenario_config scenario_table) _
           "Crop_type" "Elevation" scenario_table).
  - reflexivity.
  - exact scenario_well_formed.
  - apply (bool_decide_unpack _). vm_compute. exact I.
  - discriminate.
  - vm_compute. reflexivity.
Defined.




(** C6 as stated fails in the same way: with [abs_column='Crop_type'] the
    code [-1], a key of the mapping [{-1: 0}], is first made [1] and then
    found in no key, so the column ends as [[1, 2]] and not [[0, 2]]. *)
Lemma apply_corrections_remaps_same_column :
  df (self (loaded coded_config coded_table)) = Some coded_table ∧
  "Crop_type" ∈ df_columns coded_table ∧
  ∃ w' t',
    apply_corrections "Crop_type" "Crop_type" (loaded coded_config coded_table)
      = (w', Ok ()) ∧
    df (self w') = Some t' ∧
    df_select "Crop_type" t' = [[Num 1; Num 2]] ∧
    ¬ values_corrected {[ Num (-1) := Num 0 ]} "Crop_type" coded_table t'.
Proof.
  split; [reflexivity|]. split; [apply (bool_decide_unpack _); vm_compute; exact I|].
  eexists _, _. split; [vm_compute; reflexivity|]. split; [reflexivity|].
  split; [reflexivity|].
  intros Hclaim.
  destruct (Hclaim 1 [Num (-1); Num 2] eq_refl) as (s' & Hs' & _ & Hcells).
  injection Hs' as <-.
  destruct (Hcells 0 (Num (-1)) eq_refl) as [Hkey _].
  specialize (Hkey (Num 0) (lookup_singleton_eq _ _)). discriminate.
Qed.

(** ** Ingestion, the weather mapping and the pipeline *)

Section Pipeline.
Context {Engine : Type}.
Variable create_db_engine : string → result Engine.
Variable query_data : Engine → string → result DataFrame.
Variable read_from_web_CSV : string → result DataFrame.
Implicit Types (w : World Engine) (t : DataFrame).

Lemma bind_run {A B} (m : M Engine A) (k : A → M Engine B) w :
  (m ≫= k) w =
  match m w with
  | (w1, Ok a) => k a w1
  | (w1, Raise e) => (w1, Raise e)
  end.
Proof. reflexivity. Qed.

(** [ingest_sql_data] stores the engine as soon as it exists, and the
    table once the query has answered. *)
Lemma ingest_sql_data_run w :
  ingest_sql_data create_db_engine query_data w =
    match create_db_engine (db_path (self w)) with
    | Raise e => (w, Raise e)
    | Ok en =>
        match query_data en (sql_query (self w)) with
        | Raise e => ({| self := with_engine en (self w); console := console w |}, Raise e)
        | Ok t =>
            ({| self := with_df t (with_engine en (self w));
                console := Logger_info (logger (self w)) "Sucessfully loaded data."
                             (console w) |}, Ok t)
        end
    end.
Proof.
  unfold ingest_sql_data.
  cbv [mbind M_bind get_self lift mret M_ret set_df set_engine log_info].
  destruct (create_db_engine (db_path (self w))) as [en|e]; [|done]. simpl.
  by destruct (query_data en (sql_query (self w))) as [t|e].
Qed.

Lemma process_run w :
  process create_db_engine query_data w =
    match ingest_sql_data create_db_engine query_data w with
    | (w1, Raise e) => (w1, Raise e)
    | (w1, Ok _) =>
        match rename_columns w1 with
        | (w2, Raise e) => (w2, Raise e)
        | (w2, Ok _) => apply_corrections "Crop_type" "Elevation" w2
        end
    end.
Proof. reflexivity. Qed.

Lemma same_config_refl (σ : FieldDataProcessor Engine) : same_config σ σ.
Proof. by repeat split. Qed.

Lemma same_config_trans (σ1 σ2 σ3 : FieldDataProcessor Engine) :
  same_config σ1 σ2 → same_config σ2 σ3 → same_config σ1 σ3.
Proof.
  intros (?&?&?&?&?) (?&?&?&?&?). repeat split; congruence.
Qed.

Lemma ingest_sql_data_config w :
  same_config (self w) (self (ingest_sql_data create_db_engine query_data w).1).
Proof.
  rewrite ingest_sql_data_run.
  destruct (create_db_engine (db_path (self w))) as [en|e]; [|apply same_config_refl].
  destruct (query_data en (sql_query (self w))) as [t|e]; by repeat split.
Qed.

Lemma rename_columns_config w :
  same_config (self w) (self (rename_columns w).1).
Proof.
  destruct (df (self w)) as [t|] eqn:Ht.
  - destruct (columns_to_rename (self w)) as [|[c1 c2] rest] eqn:Hpair.
    + rewrite rename_columns_no_pair by done. apply same_config_refl.
    + rewrite (rename_columns_run w c1 c2 rest t) by done. by repeat split.
  - rewrite rename_columns_no_table by done. apply same_config_refl.
Qed.

Lemma apply_corrections_config w column_name abs_column :
  same_config (self w) (self (apply_corrections column_name abs_column w).1).
Proof.
  destruct (df (self w)) as [t|] eqn:Ht.
  - rewrite (apply_corrections_steps w column_name abs_column t Ht).
    destruct (abs_step abs_column t) as [t1|e]; [|apply same_config_refl].
    destruct (remap_step (values_to_rename (self w)) column_name t1) as [t2|e];
      by repeat split.
  - rewrite apply_corrections_no_table by done. apply same_config_refl.
Qed.

Lemma weather_station_mapping_run w :
  weather_station_mapping read_from_web_CSV w =
    (w, read_from_web_CSV (weather_map_data (self w))).
Proof.
  unfold weather_station_mapping.
  cbv [mbind M_bind get_self lift mret M_ret].
  by destruct (read_from_web_CSV (weather_map_data (self w))).
Qed.

Lemma process_config w :
  same_config (self w) (self (process create_db_engine query_data w).1).
Proof.
  rewrite process_run.
  pose proof (ingest_sql_data_config w) as H1.
  destruct (ingest_sql_data create_db_engine query_data w) as [w1 [t|e]]; [|done].
  pose proof (rename_columns_config w1) as H2.
  destruct (rename_columns w1) as [w2 [[]|e]]; simpl in *.
  - eapply same_config_trans; [exact H1|]. eapply same_config_trans; [exact H2|].
    apply apply_corrections_config.
  - by eapply same_config_trans.
Qed.

Lemma after_config (c : call) w :
  same_config (self w)
    (self (after create_db_engine query_data read_from_web_CSV c w)).
Proof.
  destruct c; simpl.
  - apply ingest_sql_data_config.
  - apply rename_columns_config.
  - apply apply_corrections_config.
  - rewrite weather_station_mapping_run. apply same_config_refl.
  - apply process_config.
Qed.

End Pipeline.

Section PipelineClaims.
Context {Engine : Type}.
Variable create_db_engine : string → result Engine.
Variable query_data : Engine → string → result DataFrame.
Variable read_from_web_CSV : string → result DataFrame.
Implicit Types (w : World Engine) (t : DataFrame).

(** C7, as amended.  [process] runs ingestion, then [rename_columns], then
    [apply_corrections] with its default columns.  When ingestion or the
    rename raises, [process] ends there with that exception and with the
    world as the failing step left it, the table being the one the steps
    before it produced.  When both return, [process] is the run of
    [apply_corrections]; if that raises, either nothing has changed, or
    only the table has, and only in the cells of [Elevation], which hold
    what the first statement assigned: for an [int64] column the absolute
    values, the minimum being left as it was. *)
Theorem process_stops_at_first_error w :
  (∀ w1 e,
     ingest_sql_data create_db_engine query_data w = (w1, Raise e) →
     process create_db_engine query_data w = (w1, Raise e) ∧
     df (self w1) = df (self w)) ∧
  (∀ w1 t w2 e,
     ingest_sql_data create_db_engine query_data w = (w1, Ok t) →
     rename_columns w1 = (w2, Raise e) →
     process create_db_engine query_data w = (w2, Raise e) ∧
     df (self w1) = Some t ∧ w2 = w1) ∧
  (∀ w1 t w2,
     ingest_sql_data create_db_engine query_data w = (w1, Ok t) →
     rename_columns w1 = (w2, Ok ()) →
     process create_db_engine query_data w
       = apply_corrections "Crop_type" "Elevation" w2) ∧
  (∀ w2 w3 e,
     apply_corrections "Crop_type" "Elevation" w2 = (w3, Raise e) →
     w3 = w2 ∨
     ∃ t2 t3,
       df (self w2) = Some t2 ∧
       w3 = {| self := with_df t3 (self w2); console := console w2 |} ∧
       df_index t3 = df_index t2 ∧
       df_columns t3 = df_columns t2 ∧
       (∀ i l s, df_data t2 !! i = Some (l, s) → l ≠ "Elevation" →
          df_data t3 !! i = Some (l, s)) ∧
       (Forall int64_column (df_select "Elevation" t2) →
          abs_corrected_int64 "Elevation" t2 t3)).
Proof.
  split; [|split; [|split]].
  - intros w1 e Hing. rewrite process_run, Hing. split; [done|].
    rewrite ingest_sql_data_run in Hing.
    destruct (create_db_engine (db_path (self w))) as [en|e1]; [|by simplify_eq].
    destruct (query_data en (sql_query (self w))) as [t|e2]; by simplify_eq.
  - intros w1 t w2 e Hing Hren. rewrite process_run, Hing, Hren. split; [done|].
    split.
    + rewrite ingest_sql_data_run in Hing.
      destruct (create_db_engine (db_path (self w))) as [en|e1]; [|by simplify_eq].
      destruct (query_data en (sql_query (self w))) as [t'|e2]; by simplify_eq.
    + destruct (df (self w1)) as [t1|] eqn:Ht.
      * destruct (columns_to_rename (self w1)) as [|[c1 c2] rest] eqn:Hpair.
        -- rewrite rename_columns_no_pair in Hren by done. by simplify_eq.
        -- rewrite (rename_columns_run w1 c1 c2 rest t1) in Hren by done. by simplify_eq.
      * rewrite rename_columns_no_table in Hren by done. by simplify_eq.
  - intros w1 t w2 Hing Hren. by rewrite process_run, Hing, Hren.
  - intros w2 w3 e Hcorr.
    destruct (df (self w2)) as [t2|] eqn:Ht.
    + rewrite (apply_corrections_steps w2 "Crop_type" "Elevation" t2 Ht) in Hcorr.
      destruct (abs_step "Elevation" t2) as [t1|e1] eqn:Habs; [|left; by simplify_eq].
      pose proof (abs_step_ok _ _ _ Habs) as (-> & _ & _).
      destruct (remap_step (values_to_rename (self w2)) "Crop_type"
                  (map_column "Elevation" abs_values t2)) as [t3|e3]; [done|].
      right. exists t2, (map_column "Elevation" abs_values t2).
      split; [done|]. split; [by simplify_eq|]. split; [done|].
      split; [apply map_column_columns|]. split.
      * intros i l s Hi Hl. rewrite (map_column_lookup _ _ _ _ _ _ Hi).
        by rewrite decide_False.
      * intros Hint i s Hi. exists (abs_values s). split.
        -- rewrite (map_column_lookup _ _ _ _ _ _ Hi). by rewrite decide_True.
        -- apply abs_values_int64. rewrite Forall_forall in Hint.
           apply Hint. by eapply select_lookup.
    + rewrite apply_corrections_no_table in Hcorr by done. left. by simplify_eq.
Qed.

(** C8.  [weather_station_mapping] hands the fetched table, or the error
    of the fetch, to its caller and leaves the instance as it was: none of
    its eight attributes changes, and nothing is logged. *)
Theorem weather_station_mapping_reads_only w :
  let w' := (weather_station_mapping read_from_web_CSV w).1 in
  (weather_station_mapping read_from_web_CSV w).2
    = read_from_web_CSV (weather_map_data (self w)) ∧
  w' = w ∧
  db_path (self w') = db_path (self w) ∧
  sql_query (self w') = sql_query (self w) ∧
  columns_to_rename (self w') = columns_to_rename (self w) ∧
  values_to_rename (self w') = values_to_rename (self w) ∧
  weather_map_data (self w') = weather_map_data (self w) ∧
  df (self w') = df (self w) ∧
  engine (self w') = engine (self w) ∧
  logger (self w') = logger (self w).
Proof. rewrite weather_station_mapping_run. simpl. by repeat split. Qed.

(** C9.  No public operation rebinds a configuration attribute, whether it
    returns or raises; so after any sequence of calls on a freshly
    constructed instance the five attributes still hold what [__init__]
    read from [config_params]. *)
Theorem configuration_immutable :
  (∀ (c : call) w,
     same_config (self w)
       (self (after create_db_engine query_data read_from_web_CSV c w))) ∧
  (∀ config_params logging_level lg out (calls : list call),
     let w := foldl (λ w c, after create_db_engine query_data read_from_web_CSV c w)
                {| self := __init__ config_params logging_level lg; console := out |}
                calls in
     db_path (self w) = cfg_db_path config_params ∧
     sql_query (self w) = cfg_sql_query config_params ∧
     columns_to_rename (self w) = cfg_columns_to_rename config_params ∧
     values_to_rename (self w) = cfg_values_to_rename config_params ∧
     weather_map_data (self w) = cfg_weather_mapping_csv config_params).
Proof.
  split; [intros c w; apply after_config|].
  intros config_params logging_level lg out calls.
  set (w0 := {| self := __init__ config_params logging_level lg; console := out |}).
  change (same_config (self w0)
            (self (foldl (λ w c, after create_db_engine query_data read_from_web_CSV c w)
                     w0 calls))).
  generalize w0. clear w0.
  induction calls as [|c calls IH]; intros w0; simpl.
  - apply same_config_refl.
  - eapply same_config_trans; [apply after_config | apply IH].
Qed.

End PipelineClaims.

Example process_scenario :
  ∃ w', process sample_create_db_engine sample_query_data (fresh scenario_config)
          = (w', Ok ()) ∧
        df (self w') =
          Some {| df_index := 3;
                  df_data := [ ("Elevation", [Num 5; Num 10; Num 3]);
                               ("Crop_type", [Str "maize"; Str "wheat"; Str "maize"]) ] |} ∧
        console w' = ["Sucessfully loaded data."; "Swapped columns: Elevation with Elevation"].
Proof. eexists. split; [vm_compute; reflexivity|]. split; reflexivity. Qed.

(** With a database path that cannot be opened, [process] ends with the
    error of the engine factory and an untouched instance. *)
Lemma process_stops_at_first_error_witness :
  process sample_create_db_engine sample_query_data (fresh missing_db_config)
    = (fresh missing_db_config, Raise (ExternalError "unable to open database file")) ∧
  df (self (fresh missing_db_config)) = df (self (fresh missing_db_config)).
Proof.
  apply (proj1 (process_stops_at_first_error sample_create_db_engine sample_query_data
                  (fresh missing_db_config))).
  vm_compute. reflexivity.
Defined.

(** C7 as stated fails when [apply_corrections] raises at its second
    statement.  The query returns [Elevation] only; ingestion and rename
    return, [apply_corrections] raises [KeyError: 'Crop_type'], and the
    table [process] leaves is not the one the rename produced: its
    [Elevation] column already holds absolute values. *)
Lemma process_partial_correction :
  ∃ w1 t w2 w3,
    ingest_sql_data sample_create_db_engine sample_query_data (fresh elevation_config)
      = (w1, Ok t) ∧
    rename_columns w1 = (w2, Ok ()) ∧
    apply_corrections "Crop_type" "Elevation" w2 = (w3, Raise (KeyError "Crop_type")) ∧
    process sample_create_db_engine sample_query_data (fresh elevation_config)
      = (w3, Raise (KeyError "Crop_type")) ∧
    df (self w2) = Some elevation_table ∧
    df (self w3) = Some {| df_index := 3;
                           df_data := [ ("Elevation", [Num 5; Num 10; Num 3]) ] |} ∧
    df (self w3) ≠ df (self w2).
Proof.
  eexists _, _, _, _.
  split; [vm_compute; reflexivity|]. split; [vm_compute; reflexivity|].
  split; [vm_compute; reflexivity|]. split; [vm_compute; reflexivity|].
  split; [reflexivity|]. split; [reflexivity|]. discriminate.
Qed.

Example weather_station_mapping_failure :
  weather_station_mapping sample_read_from_web_CSV (loaded scenario_config scenario_table)
    = (loaded scenario_config scenario_table,
       Raise (ExternalError "name resolution failed")).
Proof. reflexivity. Qed.


(** * Further properties of the methods *)

(** ** The temporary label: how long the loop runs *)

Lemma length_underscores (k : nat) : String.length (underscores k) = k.
Proof.
  induction k as [|k IH]; [done|].
  change (underscores (S k)) with ("_" +:+ underscores k).
  rewrite length_append, IH. reflexivity.
Qed.

(** X1. The loop of [rename_columns] appends at most as many underscores
    as the table has columns. *)
Theorem temp_name_loop_bounded (cols : list string) :
  ∃ k, k ≤ length cols ∧
       temp_name_loop cols "__temp_name_for_swap__"
         = "__temp_name_for_swap__" +:+ underscores k.
Proof.
  destruct (temp_name_loop_shape cols "__temp_name_for_swap__") as (k & Hk & Hbelow).
  exists k. split; [|done].
  set (candidates := (λ j, "__temp_name_for_swap__" +:+ underscores j) <$> seq 0 k).
  assert (Hlen : length candidates = k) by (unfold candidates; by rewrite length_fmap, length_seq).
  rewrite <- Hlen. apply submseteq_length, NoDup_submseteq.
  - unfold candidates. apply NoDup_fmap_2_strong; [|apply NoDup_seq].
    intros i j _ _ Heq. apply (f_equal String.length) in Heq.
    rewrite !length_append, !length_underscores in Heq. lia.
  - intros x Hx. unfold candidates in Hx.
    apply list_elem_of_fmap in Hx as (j & -> & Hj).
    apply elem_of_seq in Hj. apply Hbelow. lia.
Qed.

(** ** More on the rename step *)

Lemma swapped_data (column1 column2 : string) (t : DataFrame) :
  df_data (swapped column1 column2 t) =
  prod_map (relabel column1 column2
              (temp_name_loop (df_columns t) "__temp_name_for_swap__")) id
    <$> df_data t.
Proof.
  apply list_eq. intros i. rewrite list_lookup_fmap.
  destruct (df_data t !! i) as [[l s]|] eqn:Hi.
  - by rewrite (swapped_lookup _ _ _ _ _ _ Hi).
  - change (df_data (swapped column1 column2 t) !! i = None).
    apply lookup_ge_None. rewrite swapped_length. by apply lookup_ge_None.
Qed.

Lemma swapped_columns (column1 column2 : string) (t : DataFrame) :
  df_columns (swapped column1 column2 t) =
  relabel column1 column2 (temp_name_loop (df_columns t) "__temp_name_for_swap__")
    <$> df_columns t.
Proof.
  unfold df_columns. rewrite swapped_data, <- !list_fmap_compose.
  apply list_fmap_ext. by intros i [l s] _.
Qed.

(** A relabelling that fixes every label of the table leaves the table. *)
Lemma swapped_fixed (column1 column2 : string) (t : DataFrame) :
  (∀ l, l ∈ df_columns t →
     relabel column1 column2 (temp_name_loop (df_columns t) "__temp_name_for_swap__") l = l) →
  swapped column1 column2 t = t.
Proof.
  intros Hfix. destruct t as [n data].
  assert (Hdata : df_data (swapped column1 column2 {| df_index := n; df_data := data |}) = data).
  { rewrite swapped_data. simpl. transitivity (id <$> data); [|apply list_fmap_id].
    apply list_fmap_ext. intros i [l s] Hi. simpl. f_equal. apply Hfix.
    unfold df_columns. simpl. apply list_elem_of_fmap. exists (l, s).
    split; [done|]. by eapply list_elem_of_lookup_2. }
  unfold swapped, df_rename in *. simpl in *. by f_equal.
Qed.

Lemma temp_not_label (t : DataFrame) (l : string) :
  l ∈ df_columns t → l ≠ temp_name_loop (df_columns t) "__temp_name_for_swap__".
Proof. intros Hl ->. by apply temp_name_loop_fresh in Hl. Qed.

Lemma swapped_involutive (column1 column2 : string) (t : DataFrame) :
  column1 ∈ df_columns t → column2 ∈ df_columns t →
  swapped column1 column2 (swapped column1 column2 t) = t.
Proof.
  intros H1 H2.
  set (t1 := swapped column1 column2 t).
  set (temp := temp_name_loop (df_columns t) "__temp_name_for_swap__").
  set (temp1 := temp_name_loop (df_columns t1) "__temp_name_for_swap__").
  assert (Hne : column1 ≠ temp) by by apply temp_not_label.
  assert (Hne1 : column1 ≠ temp1).
  { apply temp_not_label. unfold t1. rewrite swapped_columns. fold temp.
    apply list_elem_of_fmap. exists column2. split; [|done].
    unfold relabel. repeat case_decide; congruence. }
  assert (Hdata : df_data (swapped column1 column2 t1) = df_data t).
  { rewrite swapped_data. unfold t1 at 2. rewrite swapped_data.
    fold temp temp1. rewrite <- list_fmap_compose.
    transitivity (id <$> df_data t); [|apply list_fmap_id].
    apply list_fmap_ext. intros i [l s] _. simpl. f_equal.
    unfold relabel. repeat case_decide; congruence. }
  destruct t as [n data]. unfold swapped, df_rename in *. simpl in *. by f_equal.
Qed.

Section RenameFurther.
Context {Engine : Type}.
Implicit Types (w : World Engine) (t : DataFrame).

(** X2. Swapping twice restores the table: with both names labelling
    columns, a second [rename_columns] undoes the first. *)
Theorem rename_columns_twice w column1 column2 rest t :
  columns_to_rename (self w) = (column1, column2) :: rest →
  df (self w) = Some t →
  column1 ∈ df_columns t →
  column2 ∈ df_columns t →
  ∃ w1 w2,
    rename_columns w = (w1, Ok ()) ∧
    rename_columns w1 = (w2, Ok ()) ∧
    df (self w2) = Some t.
Proof.
  intros Hpair Ht H1 H2. eexists _, _.
  split; [by apply (rename_columns_run w column1 column2 rest t)|].
  split; [by apply (rename_columns_run _ column1 column2 rest
                      (swapped column1 column2 t))|].
  simpl. f_equal. by apply swapped_involutive.
Qed.

(** X3. [rename_columns] introduces no label of its own: every label of
    the table it leaves was a label before or is one of the two configured
    names, so the temporary label does not stay behind. *)
Theorem rename_columns_no_new_label w column1 column2 rest t :
  columns_to_rename (self w) = (column1, column2) :: rest →
  df (self w) = Some t →
  ∃ w' t',
    rename_columns w = (w', Ok ()) ∧ df (self w') = Some t' ∧
    ∀ l, l ∈ df_columns t' → l ∈ df_columns t ∨ l = column1 ∨ l = column2.
Proof.
  intros Hpair Ht. eexists _, (swapped column1 column2 t).
  split; [by apply (rename_columns_run w column1 column2 rest t)|]. split; [done|].
  intros l Hl. rewrite swapped_columns in Hl.
  apply list_elem_of_fmap in Hl as (l0 & -> & Hl0).
  unfold relabel. repeat case_decide; auto.
Qed.

(** X4. Distinct labels stay distinct: on a table without duplicate
    column labels [rename_columns] leaves a table without duplicate
    labels. *)
Theorem rename_columns_keeps_labels_distinct w column1 column2 rest t :
  columns_to_rename (self w) = (column1, column2) :: rest →
  df (self w) = Some t →
  NoDup (df_columns t) →
  ∃ w' t',
    rename_columns w = (w', Ok ()) ∧ df (self w') = Some t' ∧
    NoDup (df_columns t').
Proof.
  intros Hpair Ht Hnodup. eexists _, (swapped column1 column2 t).
  split; [by apply (rename_columns_run w column1 column2 rest t)|]. split; [done|].
  rewrite swapped_columns. apply NoDup_fmap_2_strong; [|done].
  intros l1 l2 Hl1 Hl2. apply temp_not_label in Hl1, Hl2.
  unfold relabel. repeat case_decide; congruence.
Qed.

(** X5. When only the first name labels a column, the method is a plain
    rename: what the first name selected is afterwards selected by the
    second, and no column carries the first name any more. *)
Theorem rename_columns_plain_rename w column1 column2 rest t :
  columns_to_rename (self w) = (column1, column2) :: rest →
  df (self w) = Some t →
  column1 ∈ df_columns t →
  column2 ∉ df_columns t →
  ∃ w' t',
    rename_columns w = (w', Ok ()) ∧ df (self w') = Some t' ∧
    df_select column2 t' = df_select column1 t ∧
    column1 ∉ df_columns t'.
Proof.
  intros Hpair Ht H1 H2. eexists _, (swapped column1 column2 t).
  split; [by apply (rename_columns_run w column1 column2 rest t)|]. split; [done|].
  set (temp := temp_name_loop (df_columns t) "__temp_name_for_swap__").
  split.
  - apply (select_relabelled _ _ _ _ (relabel column1 column2 temp)).
    + intros i l s Hi. by apply swapped_lookup.
    + apply swapped_length.
    + intros l Hl. unfold relabel. repeat case_decide; split; congruence.
  - rewrite swapped_columns. fold temp. intros Hin.
    apply list_elem_of_fmap in Hin as (l & Hl & Hin).
    unfold relabel in Hl. repeat case_decide; congruence.
Qed.

(** X6. When only the second name labels a column, the rename runs
    backwards: that column ends up under the first name.  (The first name
    must not be the temporary marker followed by underscores.) *)
Theorem rename_columns_reverse_rename w column1 column2 rest t :
  columns_to_rename (self w) = (column1, column2) :: rest →
  df (self w) = Some t →
  column1 ∉ df_columns t →
  column2 ∈ df_columns t →
  (∀ k, column1 ≠ "__temp_name_for_swap__" +:+ underscores k) →
  ∃ w' t',
    rename_columns w = (w', Ok ()) ∧ df (self w') = Some t' ∧
    df_select column1 t' = df_select column2 t ∧
    column2 ∉ df_columns t'.
Proof.
  intros Hpair Ht H1 H2 Hmarker. eexists _, (swapped column1 column2 t).
  split; [by apply (rename_columns_run w column1 column2 rest t)|]. split; [done|].
  set (temp := temp_name_loop (df_columns t) "__temp_name_for_swap__").
  assert (Hne : column1 ≠ temp).
  { destruct (temp_name_loop_shape (df_columns t) "__temp_name_for_swap__")
      as (k & Hk & _). unfold temp. rewrite Hk. apply Hmarker. }
  split.
  - apply (select_relabelled _ _ _ _ (relabel column1 column2 temp)).
    + intros i l s Hi. by apply swapped_lookup.
    + apply swapped_length.
    + intros l Hl. unfold relabel. repeat case_decide; split; congruence.
  - rewrite swapped_columns. fold temp. intros Hin.
    apply list_elem_of_fmap in Hin as (l & Hl & Hin).
    unfold relabel in Hl. repeat case_decide; congruence.
Qed.

(** X7. When the two configured names are the same, or neither labels a
    column, [rename_columns] returns without an error and leaves the table
    exactly as it was. *)
Theorem rename_columns_nothing_to_rename w column1 column2 rest t :
  columns_to_rename (self w) = (column1, column2) :: rest →
  df (self w) = Some t →
  column1 = column2 ∨ ((column1 ∉ df_columns t) ∧ (column2 ∉ df_columns t)) →
  ∃ w', rename_columns w = (w', Ok ()) ∧ df (self w') = Some t.
Proof.
  intros Hpair Ht Hcase. eexists.
  split; [by apply (rename_columns_run w column1 column2 rest t)|].
  simpl. f_equal. apply swapped_fixed. intros l Hl.
  unfold relabel. destruct Hcase as [->|[H1 H2]]; repeat case_decide; congruence.
Qed.

(** X8. [rename_columns] raises in two situations only, before it has
    logged or assigned anything: [IndexError] when the rename mapping is
    empty, and otherwise [AttributeError] when no table is loaded. *)
Theorem rename_columns_raises w :
  (columns_to_rename (self w) = [] → rename_columns w = (w, Raise IndexError)) ∧
  (columns_to_rename (self w) ≠ [] → df (self w) = None →
     rename_columns w = (w, Raise AttributeError)) ∧
  (columns_to_rename (self w) ≠ [] → df (self w) ≠ None →
     (rename_columns w).2 = Ok ()).
Proof.
  split; [apply rename_columns_no_pair|]. split.
  - intros Hpair Ht. rewrite rename_columns_no_table by done.
    by destruct (columns_to_rename (self w)).
  - intros Hpair Ht.
    destruct (columns_to_rename (self w)) as [|[c1 c2] rest] eqn:Hc; [done|].
    destruct (df (self w)) as [t|] eqn:Hdf; [|done].
    by rewrite (rename_columns_run w c1 c2 rest t).
Qed.

End RenameFurther.

(** ** More on the correction step *)

Lemma Series_abs_raises (s : Series) (e : exn) :
  Series_abs s = Raise e → e = TypeError.
Proof.
  induction s as [|c s IH]; simpl; [done|].
  destruct c as [z|x]; simpl; [|by intros [= <-]].
  destruct (Series_abs s) as [r|e']; simpl; [done|].
  intros [= <-]. by apply IH.
Qed.

Lemma selection_abs_raises (sel : selection) (e : exn) :
  selection_abs sel = Raise e → e = TypeError.
Proof.
  destruct sel as [s|cols]; simpl.
  - destruct (Series_abs s) as [r|e'] eqn:Hs; simpl; [done|].
    intros [= <-]. by eapply Series_abs_raises.
  - destruct (frame_abs cols) as [r|e'] eqn:Hf; simpl; [done|]. intros [= <-].
    revert Hf. induction cols as [|s cols IH]; simpl; [done|].
    destruct (Series_abs s) as [s'|e''] eqn:Hs; simpl.
    + destruct (frame_abs cols) as [r|e'']; simpl; [done|].
      intros [= <-]. by apply IH.
    + intros [= <-]. by eapply Series_abs_raises.
Qed.

Lemma abs_step_missing (key : string) (t : DataFrame) :
  key ∉ df_columns t → abs_step key t = Raise (KeyError key).
Proof. intros Hkey. unfold abs_step. by rewrite getitem_missing. Qed.

Lemma abs_step_not_numeric (key : string) (t : DataFrame) :
  key ∈ df_columns t → ¬ Forall numeric (df_select key t) →
  abs_step key t = Raise TypeError.
Proof.
  intros Hin Hnum. unfold abs_step.
  destruct (df_getitem key t) as [sel|e] eqn:Hget.
  - destruct (getitem_columns _ _ _ Hget) as [Hcols _]. simpl.
    destruct (selection_abs sel) as [sel'|e] eqn:Habs; simpl.
    + apply selection_abs_ok in Habs as [Hall _]. rewrite Hcols in Hall. done.
    + by apply selection_abs_raises in Habs as ->.
  - apply select_columns in Hin. unfold df_getitem in Hget.
    by destruct (df_select key t) as [|s [|s2 rest]].
Qed.

Lemma map_column_well_formed (key : string) (f : Series → Series) (t : DataFrame) :
  (∀ s, length (f s) = length s) →
  well_formed t → well_formed (map_column key f t).
Proof.
  intros Hlen Hwf. unfold well_formed, map_column in *. simpl.
  rewrite Forall_fmap. eapply Forall_impl; [exact Hwf|].
  intros [l s] Hs. simpl in *. case_decide; simpl; [|done]. by rewrite Hlen.
Qed.

(** Whatever the lookup step returns is the table with a length-keeping
    function applied to the columns under the key. *)
Lemma remap_step_shape (values : gmap cell cell) (key : string) (t t2 : DataFrame) :
  remap_step values key t = Ok t2 →
  key ∈ df_columns t ∧
  ∃ f, t2 = map_column key f t ∧ ∀ s, length (f s) = length s.
Proof.
  unfold remap_step.
  destruct (df_getitem key t) as [sel|e] eqn:Hget; simpl; [|done].
  destruct (getitem_columns _ _ _ Hget) as [_ Hin]. split; [done|].
  destruct sel as [s|cols]; cbv [selection_apply_get mbind result_bind] in *.
  - exists (remapped values). split; [|intros; unfold remapped; by rewrite length_fmap].
    pose proof (setitem_mapped key (remapped values) t (OneSeries s) Hget) as Hm.
    assert (Heq : Ok t2 = Ok (map_column key (remapped values) t))
      by (etrans; [symmetry; eassumption | exact Hm]).
    by injection Heq.
  - destruct (decide (df_index t = 0)); [|done].
    exists id. split; [|done].
    pose proof (setitem_mapped key id t (SubFrame cols) Hget) as Hm.
    unfold selection_map in Hm. rewrite list_fmap_id in Hm.
    assert (Heq : Ok t2 = Ok (map_column key id t))
      by (etrans; [symmetry; eassumption | exact Hm]).
    by injection Heq.
Qed.

Lemma remap_step_missing (values : gmap cell cell) (key : string) (t : DataFrame) :
  key ∉ df_columns t → remap_step values key t = Raise (KeyError key).
Proof. intros Hkey. unfold remap_step. by rewrite getitem_missing. Qed.

Lemma abs_num_idemp (z : Z) :
  is_int64 z → abs_num (abs_num (Num z)) = abs_num (Num z).
Proof.
  intros Hz. unfold abs_num. f_equal.
  destruct (decide (z = int64_min)) as [->|Hmin]; [reflexivity|].
  rewrite (wrap64_abs z) by done. rewrite Z.abs_idemp. by apply wrap64_abs.
Qed.

Lemma abs_values_numeric (s : Series) : numeric s → numeric (abs_values s).
Proof.
  unfold numeric, abs_values. intros Hs. rewrite Forall_fmap.
  eapply Forall_impl; [exact Hs|]. intros c [z ->]. simpl. eauto.
Qed.

Section CorrectionsFurther.
Context {Engine : Type}.
Implicit Types (w : World Engine) (t : DataFrame).

(** X9. [apply_corrections] raises at its first statement, and then leaves
    the instance untouched, when no table is loaded ([TypeError]), when
    the numeric column is missing ([KeyError] naming it), and when that
    column holds a value that is not a number ([TypeError]). *)
Theorem apply_corrections_first_statement_raises w column_name abs_column :
  (df (self w) = None →
     apply_corrections column_name abs_column w = (w, Raise TypeError)) ∧
  (∀ t, df (self w) = Some t → abs_column ∉ df_columns t →
     apply_corrections column_name abs_column w = (w, Raise (KeyError abs_column))) ∧
  (∀ t, df (self w) = Some t → abs_column ∈ df_columns t →
     ¬ Forall numeric (df_select abs_column t) →
     apply_corrections column_name abs_column w = (w, Raise TypeError)).
Proof.
  split; [apply apply_corrections_no_table|]. split.
  - intros t Ht Hkey. rewrite (apply_corrections_steps w _ _ t Ht).
    by rewrite abs_step_missing.
  - intros t Ht Hin Hnum. rewrite (apply_corrections_steps w _ _ t Ht).
    by rewrite abs_step_not_numeric.
Qed.

(** X10. When the numeric column is an [int64] column but the lookup
    column is missing, [apply_corrections] raises a [KeyError] naming the
    lookup column after its first statement has run: only the table has
    changed, it is the old one with [abs] applied to the numeric column,
    so every value but the [int64] minimum is now its absolute value. *)
Theorem apply_corrections_missing_lookup_column w column_name abs_column t :
  df (self w) = Some t →
  abs_column ∈ df_columns t →
  Forall int64_column (df_select abs_column t) →
  column_name ∉ df_columns t →
  apply_corrections column_name abs_column w =
    ({| self := with_df (map_column abs_column abs_values t) (self w);
        console := console w |}, Raise (KeyError column_name)) ∧
  abs_corrected_int64 abs_column t (map_column abs_column abs_values t).
Proof.
  intros Ht Hin Hint Hmiss.
  assert (Hnum : Forall numeric (df_select abs_column t))
    by (eapply Forall_impl; [exact Hint | apply int64_column_numeric]).
  split.
  - rewrite (apply_corrections_steps w _ _ t Ht).
    rewrite (abs_step_returns abs_column t Hin Hnum).
    rewrite remap_step_missing; [done|]. by rewrite map_column_columns.
  - intros i s Hi. exists (abs_values s). split.
    + rewrite (map_column_lookup _ _ _ _ _ _ Hi). by rewrite decide_True.
    + apply abs_values_int64. rewrite Forall_forall in Hint.
      apply Hint. by eapply select_lookup.
Qed.

(** The table a call of [apply_corrections] leaves, returning or not. *)
Lemma apply_corrections_table w column_name abs_column t :
  df (self w) = Some t →
  ∃ t', df (self (apply_corrections column_name abs_column w).1) = Some t' ∧
    ((t' = t ∧ ∃ e, abs_step abs_column t = Raise e) ∨
     (abs_step abs_column t = Ok (map_column abs_column abs_values t) ∧
      (t' = map_column abs_column abs_values t ∨
       ∃ f, (∀ s, length (f s) = length s) ∧
            t' = map_column column_name f (map_column abs_column abs_values t)))).
Proof.
  intros Ht. rewrite (apply_corrections_steps w _ _ t Ht).
  destruct (abs_step abs_column t) as [t1|e] eqn:Habs;
    [|exists t; split; [done|]; left; eauto].
  pose proof (abs_step_ok _ _ _ Habs) as (-> & _ & _).
  destruct (remap_step (values_to_rename (self w)) column_name
              (map_column abs_column abs_values t)) as [t2|e] eqn:Hstep.
  - apply remap_step_shape in Hstep as (_ & f & -> & Hf).
    eexists. split; [done|]. right. split; [done|]. right. by exists f.
  - eexists. split; [done|]. right. split; [done|]. by left.
Qed.

(** X11. [apply_corrections] changes cells only, and only in the two
    designated columns: whether it returns or raises, the row count, the
    column labels and their order, and every column under another label
    are as before, and nothing is logged. *)
Theorem apply_corrections_frame w column_name abs_column t :
  df (self w) = Some t →
  ∃ t', df (self (apply_corrections column_name abs_column w).1) = Some t' ∧
    df_index t' = df_index t ∧
    df_columns t' = df_columns t ∧
    (∀ i l s, df_data t !! i = Some (l, s) → l ≠ abs_column → l ≠ column_name →
       df_data t' !! i = Some (l, s)) ∧
    console (apply_corrections column_name abs_column w).1 = console w.
Proof.
  intros Ht.
  destruct (apply_corrections_table w column_name abs_column t Ht)
    as (t' & Ht' & Hshape).
  exists t'. split; [done|].
  assert (Hconsole : console (apply_corrections column_name abs_column w).1 = console w).
  { rewrite (apply_corrections_steps w _ _ t Ht).
    destruct (abs_step abs_column t) as [t1|e]; [|done].
    by destruct (remap_step (values_to_rename (self w)) column_name t1). }
  destruct Hshape as [[-> _]|[_ [->|(f & _ & ->)]]].
  - by repeat split.
  - split; [done|]. split; [apply map_column_columns|]. split; [|done].
    intros i l s Hi Hl _. rewrite (map_column_lookup _ _ _ _ _ _ Hi).
    by rewrite decide_False.
  - split; [done|]. split; [by rewrite !map_column_columns|]. split; [|done].
    intros i l s Hi Hl1 Hl2.
    pose proof (map_column_lookup abs_column abs_values t i l s Hi) as H1.
    rewrite decide_False in H1 by done.
    rewrite (map_column_lookup _ _ _ _ _ _ H1). by rewrite decide_False.
Qed.

(** X12. Tables stay rectangular: if every column has one cell per row
    before [rename_columns] or [apply_corrections], the same holds of the
    table the call leaves, whether it returns or raises. *)
Theorem corrections_keep_table_well_formed w t :
  df (self w) = Some t →
  well_formed t →
  (∀ t', df (self (rename_columns w).1) = Some t' → well_formed t') ∧
  (∀ column_name abs_column t',
     df (self (apply_corrections column_name abs_column w).1) = Some t' →
     well_formed t').
Proof.
  intros Ht Hwf. split.
  - intros t'. destruct (columns_to_rename (self w)) as [|[c1 c2] rest] eqn:Hpair.
    + rewrite rename_columns_no_pair by done. simpl. rewrite Ht. by intros [= <-].
    + rewrite (rename_columns_run w c1 c2 rest t) by done. simpl. intros [= <-].
      unfold well_formed in *. rewrite swapped_data, swapped_index, Forall_fmap.
      eapply Forall_impl; [exact Hwf|]. by intros [l s].
  - intros column_name abs_column t' Ht'.
    destruct (apply_corrections_table w column_name abs_column t Ht)
      as (t'' & Ht'' & Hshape).
    rewrite Ht' in Ht''. injection Ht'' as <-.
    assert (Habs : ∀ s, length (abs_values s) = length s)
      by (intros; unfold abs_values; by rewrite length_fmap).
    destruct Hshape as [[-> _]|[_ [->|(f & Hf & ->)]]]; [done| |];
      repeat apply map_column_well_formed; done.
Qed.

(** X13. The absolute-value correction is idempotent on an [int64]
    column: the first call of [apply_corrections] leaves [abs] of the
    original values there, and a second call leaves the column as the
    first call left it (the lookup column being another column). *)
Theorem apply_corrections_abs_idempotent w column_name abs_column t :
  df (self w) = Some t →
  abs_column ∈ df_columns t →
  Forall int64_column (df_select abs_column t) →
  column_name ≠ abs_column →
  let w1 := (apply_corrections column_name abs_column w).1 in
  let w2 := (apply_corrections column_name abs_column w1).1 in
  ∃ t1 t2,
    df (self w1) = Some t1 ∧ df (self w2) = Some t2 ∧
    abs_corrected_int64 abs_column t t1 ∧
    df_select abs_column t2 = df_select abs_column t1.
Proof.
  intros Ht Hin Hint Hne w1 w2.
  assert (Hnum : Forall numeric (df_select abs_column t))
    by (eapply Forall_impl; [exact Hint | apply int64_column_numeric]).
  assert (Hstep : ∀ (w0 : World Engine) t0,
            df (self w0) = Some t0 → abs_column ∈ df_columns t0 →
            Forall numeric (df_select abs_column t0) →
            ∃ t', df (self (apply_corrections column_name abs_column w0).1) = Some t' ∧
                  df_columns t' = df_columns t0 ∧
                  df_select abs_column t' = abs_values <$> df_select abs_column t0 ∧
                  ∀ i s, df_data t0 !! i = Some (abs_column, s) →
                         df_data t' !! i = Some (abs_column, abs_values s)).
  { intros w0 t0 Ht0 Hin0 Hnum0.
    destruct (apply_corrections_table w0 column_name abs_column t0 Ht0)
      as (t' & Ht' & Hshape).
    exists t'. split; [done|].
    rewrite (abs_step_returns abs_column t0 Hin0 Hnum0) in Hshape.
    destruct Hshape as [[_ [e He]]|[_ [->|(f & _ & ->)]]].
    - done.
    - split; [apply map_column_columns|]. split.
      + rewrite select_map_column. by rewrite decide_True.
      + intros i s Hi. rewrite (map_column_lookup _ _ _ _ _ _ Hi).
        by rewrite decide_True.
    - split; [by rewrite !map_column_columns|]. split.
      + rewrite !select_map_column. rewrite decide_False by done.
        rewrite decide_True by done. by rewrite list_fmap_id.
      + intros i s Hi.
        pose proof (map_column_lookup abs_column abs_values t0 i abs_column s Hi) as H1.
        rewrite decide_True in H1 by done.
        rewrite (map_column_lookup _ _ _ _ _ _ H1). by rewrite decide_False. }
  destruct (Hstep w t Ht Hin Hnum) as (t1 & Ht1 & Hcols1 & Hsel1 & Hpos1).
  assert (Hnum1 : Forall numeric (df_select abs_column t1)).
  { rewrite Hsel1, Forall_fmap. eapply Forall_impl; [exact Hnum|].
    intros s Hs. by apply abs_values_numeric. }
  destruct (Hstep w1 t1 Ht1 ltac:(by rewrite Hcols1) Hnum1) as (t2 & Ht2 & _ & Hsel2 & _).
  exists t1, t2. split; [done|]. split; [done|]. split.
  - intros i s Hi. exists (abs_values s). split; [by apply Hpos1|].
    apply abs_values_int64. rewrite Forall_forall in Hint.
    apply Hint. by eapply select_lookup.
  - rewrite Hsel2, Hsel1, <- list_fmap_compose.
    apply list_fmap_ext. intros i s Hs. simpl.
    rewrite Forall_lookup in Hint. specialize (Hint i s Hs).
    unfold abs_values. rewrite <- list_fmap_compose.
    apply list_fmap_ext. intros j c Hc. simpl.
    unfold int64_column in Hint. rewrite Forall_lookup in Hint.
    destruct (Hint j c Hc) as (z & -> & Hz). by apply abs_num_idemp.
Qed.

End CorrectionsFurther.

(** ** Ingestion and the whole pipeline *)

Section PipelineFurther.
Context {Engine : Type}.
Variable create_db_engine : string → result Engine.
Variable query_data : Engine → string → result DataFrame.
Variable read_from_web_CSV : string → result DataFrame.
Implicit Types (w : World Engine) (t : DataFrame).

(** X14. A failed ingestion never touches the table and logs nothing; the
    engine attribute is rebound only if the engine was created, that is
    when it is the query that failed. *)
Theorem ingest_sql_data_failure w w1 e :
  ingest_sql_data create_db_engine query_data w = (w1, Raise e) →
  df (self w1) = df (self w) ∧
  console w1 = console w ∧
  ((create_db_engine (db_path (self w)) = Raise e ∧ w1 = w) ∨
   (∃ en, create_db_engine (db_path (self w)) = Ok en ∧
          query_data en (sql_query (self w)) = Raise e ∧
          engine (self w1) = Some en)).
Proof.
  rewrite ingest_sql_data_run.
  destruct (create_db_engine (db_path (self w))) as [en|e1] eqn:Hen.
  - destruct (query_data en (sql_query (self w))) as [t|e2] eqn:Hq; [done|].
    intros [= <- <-]. repeat split; [done..|]. right. by exists en.
  - intros [= <- <-]. repeat split; [done..|]. by left.
Qed.

(** X15. A successful ingestion replaces table and engine wholesale: the
    table returned is the table stored, it is the answer of the query run
    with the configured text on the engine created from the configured
    path, and that engine is stored too. *)
Theorem ingest_sql_data_success w w1 t :
  ingest_sql_data create_db_engine query_data w = (w1, Ok t) →
  df (self w1) = Some t ∧
  ∃ en, create_db_engine (db_path (self w)) = Ok en ∧
        query_data en (sql_query (self w)) = Ok t ∧
        engine (self w1) = Some en.
Proof.
  rewrite ingest_sql_data_run.
  destruct (create_db_engine (db_path (self w))) as [en|e1] eqn:Hen; [|done].
  destruct (query_data en (sql_query (self w))) as [t'|e2] eqn:Hq; [|done].
  intros [= <- <-]. split; [done|]. by exists en.
Qed.

(** X16. How the steps compose when all succeed: if the engine is created,
    the query answers [t], a rename pair is configured, and the renamed
    table has an [int64] [Elevation] column and exactly one [Crop_type]
    column, then [process] returns and leaves the renamed table with [abs]
    applied to [Elevation] (every value but the [int64] minimum made
    absolute) and [Crop_type] looked up in [values_to_rename]. *)
Theorem process_success w en t column1 column2 rest s :
  create_db_engine (db_path (self w)) = Ok en →
  query_data en (sql_query (self w)) = Ok t →
  columns_to_rename (self w) = (column1, column2) :: rest →
  "Elevation" ∈ df_columns (swapped column1 column2 t) →
  Forall int64_column (df_select "Elevation" (swapped column1 column2 t)) →
  df_select "Crop_type" (swapped column1 column2 t) = [s] →
  ∃ w',
    process create_db_engine query_data w = (w', Ok ()) ∧
    df (self w') =
      Some (map_column "Crop_type" (remapped (values_to_rename (self w)))
              (map_column "Elevation" abs_values (swapped column1 column2 t))) ∧
    abs_corrected_int64 "Elevation" (swapped column1 column2 t)
      (map_column "Elevation" abs_values (swapped column1 column2 t)) ∧
    engine (self w') = Some en.
Proof.
  intros Hen Hq Hpair Hin Hint Hsel.
  assert (Hnum : Forall numeric (df_select "Elevation" (swapped column1 column2 t)))
    by (eapply Forall_impl; [exact Hint | apply int64_column_numeric]).
  assert (Habs : abs_corrected_int64 "Elevation" (swapped column1 column2 t)
                   (map_column "Elevation" abs_values (swapped column1 column2 t))).
  { intros i s0 Hi. exists (abs_values s0). split.
    - rewrite (map_column_lookup _ _ _ _ _ _ Hi). by rewrite decide_True.
    - apply abs_values_int64. rewrite Forall_forall in Hint.
      apply Hint. by eapply select_lookup. }
  rewrite process_run, ingest_sql_data_run, Hen, Hq.
  rewrite (rename_columns_run _ column1 column2 rest t) by done.
  rewrite (apply_corrections_steps _ "Crop_type" "Elevation"
             (swapped column1 column2 t)) by done.
  rewrite (abs_step_returns "Elevation" _ Hin Hnum).
  erewrite remap_step_returns; [by eexists|].
  rewrite select_map_column, Hsel. reflexivity.
Qed.

End PipelineFurther.

(** ** Logging *)

Lemma Logger_info_disabled (lg : Logger) (msg : string) (out : list string) :
  disabled lg = true → Logger_info lg msg out = out.
Proof. intros Hd. unfold Logger_info. by rewrite Hd. Qed.

Lemma initialize_logging_handlers (lg : Logger) (logging_level : string) :
  handlers lg ≤ handlers (initialize_logging lg logging_level) ∧
  handlers (initialize_logging lg logging_level) ≤ Nat.max 1 (handlers lg).
Proof.
  unfold initialize_logging. repeat case_decide; simpl; lia.
Qed.

Lemma initialize_logging_disabled (lg : Logger) (logging_level : string) :
  upper logging_level = "NONE" ∨ disabled lg = true →
  disabled (initialize_logging lg logging_level) = true.
Proof.
  unfold initialize_logging.
  intros [Hnone|Hd]; repeat case_decide; simpl; try done; by rewrite Hnone in *.
Qed.

(** X17. However many instances are constructed on the same logger, and
    with whatever levels, at most one stream handler is ever added and
    none is removed, so no message is printed twice. *)
Theorem initialize_logging_adds_one_handler (lg : Logger) (levels : list string) :
  handlers lg ≤ handlers (foldl initialize_logging lg levels) ∧
  handlers (foldl initialize_logging lg levels) ≤ Nat.max 1 (handlers lg).
Proof.
  revert lg. induction levels as [|l levels IH]; intros lg; simpl; [lia|].
  destruct (IH (initialize_logging lg l)) as [H1 H2].
  pose proof (initialize_logging_handlers lg l). lia.
Qed.

Section LoggingFurther.
Context {Engine : Type}.
Variable create_db_engine : string → result Engine.
Variable query_data : Engine → string → result DataFrame.
Variable read_from_web_CSV : string → result DataFrame.
Implicit Types (w : World Engine) (t : DataFrame).

Lemma ingest_sql_data_quiet w :
  logger (self (ingest_sql_data create_db_engine query_data w).1) = logger (self w) ∧
  (disabled (logger (self w)) = true →
   console (ingest_sql_data create_db_engine query_data w).1 = console w).
Proof.
  rewrite ingest_sql_data_run.
  destruct (create_db_engine (db_path (self w))) as [en|e]; [|done].
  destruct (query_data en (sql_query (self w))) as [t|e]; [|done].
  simpl. split; [done|]. apply Logger_info_disabled.
Qed.

Lemma rename_columns_quiet w :
  logger (self (rename_columns w).1) = logger (self w) ∧
  (disabled (logger (self w)) = true → console (rename_columns w).1 = console w).
Proof.
  destruct (df (self w)) as [t|] eqn:Ht.
  - destruct (columns_to_rename (self w)) as [|[c1 c2] rest] eqn:Hpair.
    + by rewrite rename_columns_no_pair.
    + rewrite (rename_columns_run w c1 c2 rest t) by done. simpl.
      split; [done|]. apply Logger_info_disabled.
  - by rewrite rename_columns_no_table.
Qed.

Lemma apply_corrections_quiet w column_name abs_column :
  logger (self (apply_corrections column_name abs_column w).1) = logger (self w) ∧
  console (apply_corrections column_name abs_column w).1 = console w.
Proof.
  destruct (df (self w)) as [t|] eqn:Ht.
  - rewrite (apply_corrections_steps w column_name abs_column t Ht).
    destruct (abs_step abs_column t) as [t1|e]; [|done].
    by destruct (remap_step (values_to_rename (self w)) column_name t1).
  - by rewrite apply_corrections_no_table.
Qed.

Lemma after_quiet (c : call) w :
  logger (self (after create_db_engine query_data read_from_web_CSV c w))
    = logger (self w) ∧
  (disabled (logger (self w)) = true →
   console (after create_db_engine query_data read_from_web_CSV c w) = console w).
Proof.
  destruct c; simpl.
  - apply ingest_sql_data_quiet.
  - apply rename_columns_quiet.
  - destruct (apply_corrections_quiet w column_name abs_column). by split.
  - by rewrite weather_station_mapping_run.
  - rewrite process_run.
    pose proof (ingest_sql_data_quiet w) as [Hl1 Hc1].
    destruct (ingest_sql_data create_db_engine query_data w) as [w1 [t|e]];
      simpl in *; [|done].
    pose proof (rename_columns_quiet w1) as [Hl2 Hc2].
    destruct (rename_columns w1) as [w2 [[]|e]]; simpl in *.
    + destruct (apply_corrections_quiet w2 "Crop_type" "Elevation") as [Hl3 Hc3].
      split; [congruence|]. intros Hd.
      rewrite Hc3, Hc2, Hc1; [done..|congruence].
    + split; [congruence|]. intros Hd. rewrite Hc2, Hc1; [done..|congruence].
Qed.

(** X18. A silenced instance stays silent.  If the instance is built with
    level 'NONE' (in any letter case), or on a logger that is already
    disabled, then no sequence of calls writes a line to the log. *)
Theorem silenced_instance_logs_nothing config_params logging_level lg out
    (calls : list call) :
  upper logging_level = "NONE" ∨ disabled lg = true →
  console (foldl (λ w c, after create_db_engine query_data read_from_web_CSV c w)
             {| self := __init__ config_params logging_level lg; console := out |}
             calls) = out.
Proof.
  intros Hquiet.
  set (w0 := {| self := __init__ config_params logging_level lg; console := out |}).
  assert (Hd : disabled (logger (self w0)) = true)
    by (apply initialize_logging_disabled, Hquiet).
  change out with (console w0). generalize dependent w0. clear.
  induction calls as [|c calls IH]; intros w0 Hd; simpl; [done|].
  destruct (after_quiet c w0) as [Hl Hc].
  rewrite IH by (by rewrite Hl). by apply Hc.
Qed.

Lemma ingest_sql_data_same_data w w' :
  same_data (self w) (self w') →
  (ingest_sql_data create_db_engine query_data w').2
    = (ingest_sql_data create_db_engine query_data w).2 ∧
  same_data (self (ingest_sql_data create_db_engine query_data w).1)
            (self (ingest_sql_data create_db_engine query_data w').1).
Proof.
  intros (H1 & H2 & H3 & H4 & H5 & H6 & H7).
  rewrite !ingest_sql_data_run, H1, H2.
  destruct (create_db_engine (db_path (self w))) as [en|e]; [|by repeat split].
  destruct (query_data en (sql_query (self w))) as [t|e]; by repeat split.
Qed.

Lemma rename_columns_same_data w w' :
  same_data (self w) (self w') →
  (rename_columns w').2 = (rename_columns w).2 ∧
  same_data (self (rename_columns w).1) (self (rename_columns w').1).
Proof.
  intros (H1 & H2 & H3 & H4 & H5 & H6 & H7).
  destruct (df (self w)) as [t|] eqn:Ht.
  - destruct (columns_to_rename (self w)) as [|[c1 c2] rest] eqn:Hpair.
    + rewrite !rename_columns_no_pair by congruence. repeat split; simpl; congruence.
    + rewrite (rename_columns_run w c1 c2 rest t) by done.
      rewrite (rename_columns_run w' c1 c2 rest t) by congruence.
      repeat split; simpl; congruence.
  - rewrite !rename_columns_no_table by congruence. rewrite H3. repeat split; simpl; congruence.
Qed.

Lemma apply_corrections_same_data w w' column_name abs_column :
  same_data (self w) (self w') →
  (apply_corrections column_name abs_column w').2
    = (apply_corrections column_name abs_column w).2 ∧
  same_data (self (apply_corrections column_name abs_column w).1)
            (self (apply_corrections column_name abs_column w').1).
Proof.
  intros (H1 & H2 & H3 & H4 & H5 & H6 & H7).
  destruct (df (self w)) as [t|] eqn:Ht.
  - rewrite (apply_corrections_steps w column_name abs_column t Ht).
    rewrite (apply_corrections_steps w' column_name abs_column t) by congruence.
    rewrite H4.
    destruct (abs_step abs_column t) as [t1|e]; [|repeat split; simpl; congruence].
    destruct (remap_step (values_to_rename (self w)) column_name t1);
      repeat split; simpl; congruence.
  - rewrite !apply_corrections_no_table by congruence. repeat split; simpl; congruence.
Qed.

(** X19. Logging has no effect on data.  Two instances that agree on every
    attribute but the logger give, for each call, the same returned value
    or exception and again agree on every attribute but the logger; hence
    instances built from one configuration with different logging levels
    hold the same table and engine after any sequence of calls. *)
Theorem logging_does_not_affect_data :
  (∀ (c : call) w w',
     same_data (self w) (self w') →
     outcome create_db_engine query_data read_from_web_CSV c w'
       = outcome create_db_engine query_data read_from_web_CSV c w ∧
     same_data (self (after create_db_engine query_data read_from_web_CSV c w))
               (self (after create_db_engine query_data read_from_web_CSV c w'))) ∧
  (∀ config_params level level' lg lg' out out' (calls : list call),
     same_data
       (self (foldl (λ w c, after create_db_engine query_data read_from_web_CSV c w)
                {| self := __init__ config_params level lg; console := out |} calls))
       (self (foldl (λ w c, after create_db_engine query_data read_from_web_CSV c w)
                {| self := __init__ config_params level' lg'; console := out' |}
                calls))).
Proof.
  assert (Hstep : ∀ (c : call) w w',
     same_data (self w) (self w') →
     outcome create_db_engine query_data read_from_web_CSV c w'
       = outcome create_db_engine query_data read_from_web_CSV c w ∧
     same_data (self (after create_db_engine query_data read_from_web_CSV c w))
               (self (after create_db_engine query_data read_from_web_CSV c w'))).
  { intros c w w' Hsd. destruct c; simpl.
    - destruct (ingest_sql_data_same_data w w' Hsd) as [-> ?]. by split.
    - destruct (rename_columns_same_data w w' Hsd) as [-> ?]. by split.
    - destruct (apply_corrections_same_data w w' column_name abs_column Hsd)
        as [-> ?]. by split.
    - rewrite !weather_station_mapping_run. simpl.
      pose proof Hsd as (_ & _ & _ & _ & Hweather & _). rewrite Hweather. by split.
    - rewrite !process_run.
      destruct (ingest_sql_data_same_data w w' Hsd) as [Hr1 Hs1].
      destruct (ingest_sql_data create_db_engine query_data w) as [w1 r1].
      destruct (ingest_sql_data create_db_engine query_data w') as [w1' r1'].
      simpl in *. subst r1'. destruct r1 as [t|e]; [|by split].
      destruct (rename_columns_same_data w1 w1' Hs1) as [Hr2 Hs2].
      destruct (rename_columns w1) as [w2 r2].
      destruct (rename_columns w1') as [w2' r2'].
      simpl in *. subst r2'. destruct r2 as [[]|e]; [|by split].
      destruct (apply_corrections_same_data w2 w2' "Crop_type" "Elevation" Hs2)
        as [-> ?]. by split. }
  split; [exact Hstep|].
  intros config_params level level' lg lg' out out' calls.
  set (w0 := {| self := __init__ config_params level lg; console := out |}).
  set (w0' := {| self := __init__ config_params level' lg'; console := out' |}).
  assert (Hsd : same_data (self w0) (self w0')) by by repeat split.
  generalize dependent w0'. generalize dependent w0. clear -Hstep.
  induction calls as [|c calls IH]; intros w0 w0' Hsd; simpl; [done|].
  apply IH. by apply Hstep.
Qed.

End LoggingFurther.

(** ** The further properties on the sample data *)

Lemma rename_columns_twice_witness :
  ∃ w1 w2,
    rename_columns (loaded survey_config yield_table) = (w1, Ok ()) ∧
    rename_columns w1 = (w2, Ok ()) ∧
    df (self w2) = Some yield_table.
Proof.
  apply (rename_columns_twice (loaded survey_config yield_table)
           "Annual_yield" "Crop_type" [("Crop_type", "Annual_yield")] yield_table).
  - reflexivity.
  - reflexivity.
  - apply (bool_decide_unpack _). vm_compute. exact I.
  - apply (bool_decide_unpack _). vm_compute. exact I.
Defined.

Lemma rename_columns_no_new_label_witness :
  ∃ w' t',
    rename_columns (loaded survey_config yield_table) = (w', Ok ()) ∧
    df (self w') = Some t' ∧
    ∀ l, l ∈ df_columns t' →
      l ∈ df_columns yield_table ∨ l = "Annual_yield" ∨ l = "Crop_type".
Proof.
  apply (rename_columns_no_new_label (loaded survey_config yield_table)
           "Annual_yield" "Crop_type" [("Crop_type", "Annual_yield")] yield_table).
  - reflexivity.
  - reflexivity.
Defined.

Lemma rename_columns_keeps_labels_distinct_witness :
  ∃ w' t',
    rename_columns (loaded survey_config yield_table) = (w', Ok ()) ∧
    df (self w') = Some t' ∧ NoDup (df_columns t').
Proof.
  apply (rename_columns_keeps_labels_distinct (loaded survey_config yield_table)
           "Annual_yield" "Crop_type" [("Crop_type", "Annual_yield")] yield_table).
  - reflexivity.
  - reflexivity.
  - apply (bool_decide_unpack _). vm_compute. exact I.
Defined.

Lemma rename_columns_plain_rename_witness :
  ∃ w' t',
    rename_columns (loaded field_config field_table) = (w', Ok ()) ∧
    df (self w') = Some t' ∧
    df_select "Field_B" t' = df_select "Field_A" field_table ∧
    "Field_A" ∉ df_columns t'.
Proof.
  apply (rename_columns_plain_rename (loaded field_config field_table)
           "Field_A" "Field_B" [] field_table).
  - reflexivity.
  - reflexivity.
  - apply (bool_decide_unpack _). vm_compute. exact I.
  - apply (bool_decide_unpack _). vm_compute. exact I.
Defined.

Lemma rename_columns_reverse_rename_witness :
  ∃ w' t',
    rename_columns (loaded survey_config crop_table) = (w', Ok ()) ∧
    df (self w') = Some t' ∧
    df_select "Annual_yield" t' = df_select "Crop_type" crop_table ∧
    "Crop_type" ∉ df_columns t'.
Proof.
  apply (rename_columns_reverse_rename (loaded survey_config crop_table)
           "Annual_yield" "Crop_type" [("Crop_type", "Annual_yield")] crop_table).
  - reflexivity.
  - reflexivity.
  - apply (bool_decide_unpack _). vm_compute. exact I.
  - apply (bool_decide_unpack _). vm_compute. exact I.
  - intros k. discriminate.
Defined.

Lemma rename_columns_nothing_to_rename_witness :
  ∃ w', rename_columns (loaded scenario_config scenario_table) = (w', Ok ()) ∧
        df (self w') = Some scenario_table.
Proof.
  apply (rename_columns_nothing_to_rename (loaded scenario_config scenario_table)
           "Elevation" "Elevation" [] scenario_table).
  - reflexivity.
  - reflexivity.
  - left. reflexivity.
Defined.

Lemma rename_columns_raises_witness :
  rename_columns (fresh scenario_config) = (fresh scenario_config, Raise AttributeError).
Proof.
  apply (proj1 (proj2 (rename_columns_raises (fresh scenario_config)))).
  - discriminate.
  - reflexivity.
Defined.

Lemma apply_corrections_first_statement_raises_witness :
  apply_corrections "Crop_type" "Depth" (loaded field_config crop_table)
    = (loaded field_config crop_table, Raise (KeyError "Depth")).
Proof.
  apply (proj1 (proj2 (apply_corrections_first_statement_raises
                         (loaded field_config crop_table) "Crop_type" "Depth"))
           crop_table).
  - reflexivity.
  - apply (bool_decide_unpack _). vm_compute. exact I.
Defined.

Lemma elevation_table_int64 :
  Forall int64_column (df_select "Elevation" elevation_table).
Proof. exact scenario_elevation_int64. Defined.

Lemma apply_corrections_missing_lookup_column_witness :
  apply_corrections "Crop_type" "Elevation" (loaded elevation_config elevation_table) =
    ({| self := with_df (map_column "Elevation" abs_values elevation_table)
                  (self (loaded elevation_config elevation_table));
        console := [] |}, Raise (KeyError "Crop_type")) ∧
  abs_corrected_int64 "Elevation" elevation_table
    (map_column "Elevation" abs_values elevation_table).
Proof.
  apply (apply_corrections_missing_lookup_column
           (loaded elevation_config elevation_table) "Crop_type" "Elevation"
           elevation_table).
  - reflexivity.
  - apply (bool_decide_unpack _). vm_compute. exact I.
  - exact elevation_table_int64.
  - apply (bool_decide_unpack _). vm_compute. exact I.
Defined.

Lemma apply_corrections_frame_witness :
  ∃ t', df (self (apply_corrections "Crop_type" "Elevation"
                    (loaded survey_config yield_table)).1) = Some t' ∧
    df_index t' = df_index yield_table ∧
    df_columns t' = df_columns yield_table ∧
    (∀ i l s, df_data yield_table !! i = Some (l, s) →
       l ≠ "Elevation" → l ≠ "Crop_type" → df_data t' !! i = Some (l, s)) ∧
    console (apply_corrections "Crop_type" "Elevation"
               (loaded survey_config yield_table)).1 = [].
Proof.
  apply (apply_corrections_frame (loaded survey_config yield_table)
           "Crop_type" "Elevation" yield_table).
  reflexivity.
Defined.

Lemma corrections_keep_table_well_formed_witness :
  (∀ t', df (self (rename_columns (loaded scenario_config scenario_table)).1) = Some t' →
         well_formed t') ∧
  (∀ column_name abs_column t',
     df (self (apply_corrections column_name abs_column
                 (loaded scenario_config scenario_table)).1) = Some t' →
     well_formed t').
Proof.
  apply (corrections_keep_table_well_formed (loaded scenario_config scenario_table)
           scenario_table).
  - reflexivity.
  - exact scenario_well_formed.
Defined.

Lemma apply_corrections_abs_idempotent_witness :
  ∃ t1 t2,
    df (self (apply_corrections "Crop_type" "Elevation"
                (loaded scenario_config scenario_table)).1) = Some t1 ∧
    df (self (apply_corrections "Crop_type" "Elevation"
                (apply_corrections "Crop_type" "Elevation"
                   (loaded scenario_config scenario_table)).1).1) = Some t2 ∧
    abs_corrected_int64 "Elevation" scenario_table t1 ∧
    df_select "Elevation" t2 = df_select "Elevation" t1.
Proof.
  apply (apply_corrections_abs_idempotent (loaded scenario_config scenario_table)
           "Crop_type" "Elevation" scenario_table).
  - reflexivity.
  - apply (bool_decide_unpack _). vm_compute. exact I.
  - exact scenario_elevation_int64.
  - discriminate.
Defined.

Lemma ingest_sql_data_failure_witness :
  df (self (fresh missing_db_config)) = df (self (fresh missing_db_config)) ∧
  console (fresh missing_db_config) = console (fresh missing_db_config) ∧
  ((sample_create_db_engine (db_path (self (fresh missing_db_config)))
      = Raise (ExternalError "unable to open database file") ∧
    fresh missing_db_config = fresh missing_db_config) ∨
   (∃ en, sample_create_db_engine (db_path (self (fresh missing_db_config))) = Ok en ∧
          sample_query_data en (sql_query (self (fresh missing_db_config)))
            = Raise (ExternalError "unable to open database file") ∧
          engine (self (fresh missing_db_config)) = Some en)).
Proof.
  apply (ingest_sql_data_failure sample_create_db_engine sample_query_data
           (fresh missing_db_config)).
  vm_compute. reflexivity.
Defined.

Lemma ingest_sql_data_success_witness :
  ∃ w1,
    ingest_sql_data sample_create_db_engine sample_query_data (fresh scenario_config)
      = (w1, Ok scenario_table) ∧
    df (self w1) = Some scenario_table ∧
    ∃ en, sample_create_db_engine (db_path (self (fresh scenario_config))) = Ok en ∧
          sample_query_data en (sql_query (self (fresh scenario_config)))
            = Ok scenario_table ∧
          engine (self w1) = Some en.
Proof.
  eexists. split; [vm_compute; reflexivity|].
  apply (ingest_sql_data_success sample_create_db_engine sample_query_data
           (fresh scenario_config)).
  vm_compute. reflexivity.
Defined.

Lemma process_success_witness :
  ∃ w',
    process sample_create_db_engine sample_query_data (fresh scenario_config)
      = (w', Ok ()) ∧
    df (self w') =
      Some (map_column "Crop_type"
              (remapped (values_to_rename (self (fresh scenario_config))))
              (map_column "Elevation" abs_values
                 (swapped "Elevation" "Elevation" scenario_table))) ∧
    abs_corrected_int64 "Elevation" (swapped "Elevation" "Elevation" scenario_table)
      (map_column "Elevation" abs_values
         (swapped "Elevation" "Elevation" scenario_table)) ∧
    engine (self w') = Some ().
Proof.
  apply (process_success sample_create_db_engine sample_query_data
           (fresh scenario_config) () scenario_table "Elevation" "Elevation" []
           [Str "maize"; Str "unknown_code"; Str "maize"]).
  - reflexivity.
  - reflexivity.
  - reflexivity.
  - apply (bool_decide_unpack _). vm_compute. exact I.
  - exact scenario_elevation_int64.
  - vm_compute. reflexivity.
Defined.

Lemma silenced_instance_logs_nothing_witness :
  console (foldl (λ w c, after sample_create_db_engine sample_query_data
                           sample_read_from_web_CSV c w)
             {| self := __init__ scenario_config "none" quiet_logger; console := [] |}
             [Process; RenameColumns; IngestSqlData]) = [].
Proof.
  apply (silenced_instance_logs_nothing sample_create_db_engine sample_query_data
           sample_read_from_web_CSV scenario_config "none" quiet_logger []
           [Process; RenameColumns; IngestSqlData]).
  left. reflexivity.
Defined.

Lemma logging_does_not_affect_data_witness :
  same_data
    (self (foldl (λ w c, after sample_create_db_engine sample_query_data
                           sample_read_from_web_CSV c w)
             {| self := __init__ scenario_config "DEBUG" quiet_logger; console := [] |}
             [Process; WeatherStationMapping]))
    (self (foldl (λ w c, after sample_create_db_engine sample_query_data
                           sample_read_from_web_CSV c w)
             {| self := __init__ scenario_config "none" quiet_logger; console := [] |}
             [Process; WeatherStationMapping])).
Proof.
  apply (proj2 (logging_does_not_affect_data sample_create_db_engine sample_query_data
                  sample_read_from_web_CSV)).
Defined.

(** ** Before and after a run of the pipeline *)

Section Lifecycle.
Context {Engine : Type}.
Variable create_db_engine : string → result Engine.
Variable query_data : Engine → string → result DataFrame.
Implicit Types (w : World Engine) (t : DataFrame).

(** X20. The table-level methods need an ingested table.  On an instance
    as [__init__] leaves it, whatever the configuration and logging level,
    [rename_columns] raises ([IndexError] for an empty rename mapping,
    [AttributeError] otherwise) and [apply_corrections] raises [TypeError];
    both leave the instance as constructed and log nothing. *)
Theorem methods_need_ingestion config_params logging_level lg out :
  let w : World Engine :=
    {| self := __init__ config_params logging_level lg; console := out |} in
  rename_columns w =
    (w, Raise (if cfg_columns_to_rename config_params is [] then IndexError
               else AttributeError)) ∧
  ∀ column_name abs_column,
    apply_corrections column_name abs_column w = (w, Raise TypeError).
Proof.
  intros w. split.
  - by rewrite rename_columns_no_table.
  - intros column_name abs_column. by rewrite apply_corrections_no_table.
Qed.

(** X21. [process] can be run again: after a run that returned, a second
    run returns too and leaves the same table and the same engine, since
    ingestion replaces both and no step changes the configuration. *)
Theorem process_rerun w w1 :
  process create_db_engine query_data w = (w1, Ok ()) →
  ∃ w2,
    process create_db_engine query_data w1 = (w2, Ok ()) ∧
    df (self w2) = df (self w1) ∧
    engine (self w2) = engine (self w1).
Proof.
  rewrite process_run, ingest_sql_data_run.
  destruct (create_db_engine (db_path (self w))) as [en|e] eqn:Hen; [|done].
  destruct (query_data en (sql_query (self w))) as [t|e] eqn:Hq; [|done].
  destruct (columns_to_rename (self w)) as [|[c1 c2] rest] eqn:Hpair.
  { rewrite rename_columns_no_pair by done. done. }
  rewrite (rename_columns_run _ c1 c2 rest t) by done.
  rewrite (apply_corrections_steps _ "Crop_type" "Elevation" (swapped c1 c2 t))
    by done.
  destruct (abs_step "Elevation" (swapped c1 c2 t)) as [t1|e] eqn:Habs; [|done].
  simpl.
  destruct (remap_step (values_to_rename (self w)) "Crop_type" t1) as [t2|e] eqn:Hstep;
    [|done].
  intros [= <-].
  rewrite process_run, ingest_sql_data_run. simpl. rewrite Hen, Hq.
  rewrite (rename_columns_run _ c1 c2 rest t) by done.
  rewrite (apply_corrections_steps _ "Crop_type" "Elevation" (swapped c1 c2 t))
    by done.
  rewrite Habs. simpl. rewrite Hstep. by eexists.
Qed.

End Lifecycle.

Lemma process_rerun_witness :
  ∃ w2,
    process sample_create_db_engine sample_query_data
      (process sample_create_db_engine sample_query_data (fresh scenario_config)).1
      = (w2, Ok ()) ∧
    df (self w2)
      = df (self (process sample_create_db_engine sample_query_data
                    (fresh scenario_config)).1) ∧
    engine (self w2)
      = engine (self (process sample_create_db_engine sample_query_data
                        (fresh scenario_config)).1).
Proof.
  apply (process_rerun sample_create_db_engine sample_query_data
           (fresh scenario_config)).
  vm_compute. reflexivity.
Defined.
